(** * Agent step engine of letta/agent.py: context window, compaction,
      model-call retries and tool dispatch.

    The development follows the Python source function by function.  The
    agent object is a record threaded through a state-and-exception monad in
    which, as in Python, the state written before a [raise] is kept.
    Collaborators that live outside [letta/agent.py] (tokenizer, summarizer,
    model endpoint, sandbox, packaging helpers, constants) are the fields of
    the class [Collaborators]. *)

From Stdlib Require Import ZArith Lia Bool.
From stdpp Require Import base list strings.

Local Open Scope string_scope.
Local Open Scope list_scope.

(** ** Python values *)

Module Py.

(** [l[i]] for a non-negative or negative integer index; [None] stands for
    IndexError. *)
Definition index {A} (l : list A) (i : Z) : option A :=
  if (0 <=? i)%Z then l !! Z.to_nat i
  else if (- Z.of_nat (length l) <=? i)%Z then l !! Z.to_nat (Z.of_nat (length l) + i)
  else None.

(** [l[i:]] *)
Definition slice_from {A} (l : list A) (i : Z) : list A :=
  if (0 <=? i)%Z then drop (Z.to_nat i) l
  else drop (Z.to_nat (Z.of_nat (length l) + i)) l.

(** [l[:j]] *)
Definition slice_to {A} (l : list A) (j : Z) : list A :=
  if (0 <=? j)%Z then take (Z.to_nat j) l
  else take (Z.to_nat (Z.of_nat (length l) + j)) l.

(** [l[i:j]] for non-negative [i] and [j] *)
Definition slice {A} (l : list A) (i j : nat) : list A :=
  drop i (take j l).

(** [sum(l)] *)
Definition sum (l : list Z) : Z := foldr Z.add 0%Z l.

(** [len(l)] as a Python int *)
Definition len {A} (l : list A) : Z := Z.of_nat (length l).

(** [needle in haystack] on str *)
Fixpoint is_prefix (p s : string) : bool :=
  match p, s with
  | EmptyString, _ => true
  | String a p', String b s' => if Ascii.eqb a b then is_prefix p' s' else false
  | String _ _, EmptyString => false
  end.

Fixpoint contains (needle haystack : string) : bool :=
  if is_prefix needle haystack then true
  else match haystack with
       | EmptyString => false
       | String _ rest => contains needle rest
       end.

End Py.

(** ** Exceptions and results *)

Inductive exn :=
| AssertionError
| IndexError
| TypeError
| NotImplementedError
| DeprecationWarning
| ValueError (msg : string)
| RuntimeError (msg : string)
| ContextWindowExceededError (msg : string) (num_candidate_messages num_total_messages preserve_N : Z)
| Exception (msg : string)
| External (is_value_error : bool) (descr : string).
(* [External b d]: a fault raised inside a collaborator; [b] says whether its
   class derives from ValueError. *)

(** [isinstance(e, ValueError)] *)
Definition is_ValueError (e : exn) : bool :=
  match e with
  | ValueError _ => true
  | External b _ => b
  | _ => false
  end.

Inductive Result (A : Type) :=
| Ok (a : A)
| Raise (e : exn).
Arguments Ok {A} a.
Arguments Raise {A} e.

(** What a collaborator call gives back. *)
Inductive outcome (A : Type) :=
| Returned (a : A)
| Faulted (is_value_error : bool) (descr : string).
Arguments Returned {A} a.
Arguments Faulted {A} is_value_error descr.

(** ** Data model *)

Inductive MessageRole := system | user | assistant | tool | function.

Definition role_eqb (a b : MessageRole) : bool :=
  match a, b with
  | system, system | user, user | assistant, assistant
  | tool, tool | function, function => true
  | _, _ => false
  end.

Inductive MessageId :=
| GivenId (s : string)      (* an id passed in by the caller *)
| FreshId (n : nat).        (* an id generated at creation *)

Record FunctionCall := {
  fc_name : string;
  fc_arguments : string
}.

Record ToolCall := {
  tc_id : option string;
  tc_function : FunctionCall
}.

(** The OpenAI-style dict of a message. *)
Record OpenAIDict := {
  d_role : MessageRole;
  d_content : option string;
  d_name : option string;
  d_tool_calls : option (list ToolCall);
  d_tool_call_id : option string
}.

Record Message := {
  msg_id : MessageId;
  role : MessageRole;
  text : option string;
  msg_name : option string;
  msg_tool_calls : option (list ToolCall);
  msg_tool_call_id : option string;
  created_at : Z
}.

(** The model's reply ([ChatCompletionMessage]). *)
Record ChatCompletionMessage := {
  cm_role : MessageRole;
  content : option string;
  tool_calls : option (list ToolCall);
  function_call : option FunctionCall
}.

Record Choice := {
  finish_reason : string;
  message : ChatCompletionMessage
}.

Record ChatCompletionResponse := {
  resp_id : string;
  choices : list (option Choice);
  total_tokens : Z
}.

Record Block := {
  label : string;
  value : string;
  limit : Z
}.

Definition Memory := list Block.

Record Tool := {
  tool_name : string;
  return_char_limit : Z
}.

Inductive JsonValue :=
| JNull
| JBool (b : bool)
| JStr (s : string)
| JNum (z : Z).

(** Parsed tool arguments: a dict with string keys, in insertion order. *)
Definition Args := list (string * JsonValue).

Inductive ToolRule :=
| InitToolRule (tool_name : string)
| TerminalToolRule (tool_name : string)
| ChildToolRule (tool_name : string) (children : list string).

(** Modelled from the spec: [ToolRulesSolver] of [letta.helpers] is imported
    by [agent.py] but its source is not part of it.  Sections 3 and 4.2 give
    its state (the rules by variant, the last tool invoked) and operations
    ([update], [isTerminal], [hasChildren]). *)
Record ToolRulesSolver := {
  init_tool_rules : list string;
  child_tool_rules : list (string * list string);
  terminal_tool_rules : list string;
  last_tool_name : option string
}.

(** Modelled from the spec: the operations of [ToolRulesSolver]
    ([letta.helpers]), after sections 3 and 4.2: the rules are split by
    variant at construction, [update] records the tool just executed,
    [isTerminal] and [hasChildren] look a name up among the terminal and the
    children rules, and the allowed tools are the init tools before any call
    and the children of the last tool after it. *)
Module Solver.

Definition init_rules_of (rules : list ToolRule) : list string :=
  omap (fun r => match r with InitToolRule n => Some n | _ => None end) rules.

Definition child_rules_of (rules : list ToolRule) : list (string * list string) :=
  omap (fun r => match r with ChildToolRule n cs => Some (n, cs) | _ => None end) rules.

Definition terminal_rules_of (rules : list ToolRule) : list string :=
  omap (fun r => match r with TerminalToolRule n => Some n | _ => None end) rules.

(** [ToolRulesSolver(tool_rules=...)] *)
Definition new (rules : list ToolRule) : ToolRulesSolver :=
  {| init_tool_rules := init_rules_of rules;
     child_tool_rules := child_rules_of rules;
     terminal_tool_rules := terminal_rules_of rules;
     last_tool_name := None |}.

Definition update_tool_usage (name : option string) (s : ToolRulesSolver) : ToolRulesSolver :=
  {| init_tool_rules := init_tool_rules s;
     child_tool_rules := child_tool_rules s;
     terminal_tool_rules := terminal_tool_rules s;
     last_tool_name := name |}.

Definition name_matches (name : option string) (rule_tool : string) : bool :=
  match name with
  | Some n => String.eqb rule_tool n
  | None => false
  end.

Definition get_allowed_tool_names (s : ToolRulesSolver) : list string :=
  match last_tool_name s with
  | None => init_tool_rules s
  | Some t =>
      concat (map snd (List.filter (fun r => String.eqb (fst r) t) (child_tool_rules s)))
  end.

Definition has_children_tools (s : ToolRulesSolver) (name : option string) : bool :=
  existsb (fun r => name_matches name (fst r)) (child_tool_rules s).

Definition is_terminal_tool (s : ToolRulesSolver) (name : option string) : bool :=
  existsb (name_matches name) (terminal_tool_rules s).

End Solver.

(** What the interface object is told. *)
Inductive InterfaceEvent :=
| internal_monologue (txt : option string)
| function_message (txt : string)
| step_complete.

(** ** The agent object *)

Record Agent := {
  _messages : list Message;
  messages_total : Z;
  agent_alerted_about_memory_pressure : bool;
  memory : Memory;
  system_prompt : string;
  tools : list Tool;
  model : string;
  context_window : option Z;
  tool_rules_solver : ToolRulesSolver;
  supports_structured_output : bool;
  last_function_response : option string;
  (* collaborators, as far as the agent can observe them *)
  recall : list Message;              (* what message_manager was asked to create *)
  interface_log : list InterfaceEvent;
  clock : Z;                          (* get_utc_time() *)
  next_uuid : nat;
  api_calls : nat;                    (* calls made to the model endpoint *)
  slept : list nat                    (* attempts after which the retry loop slept *)
}.

(** Attribute assignment, one function per attribute that is written. *)

Definition set_messages (v : list Message) (a : Agent) : Agent :=
  {| _messages := v;
     messages_total := messages_total a;
     agent_alerted_about_memory_pressure := agent_alerted_about_memory_pressure a;
     memory := memory a;
     system_prompt := system_prompt a;
     tools := tools a;
     model := model a;
     context_window := context_window a;
     tool_rules_solver := tool_rules_solver a;
     supports_structured_output := supports_structured_output a;
     last_function_response := last_function_response a;
     recall := recall a;
     interface_log := interface_log a;
     clock := clock a;
     next_uuid := next_uuid a;
     api_calls := api_calls a;
     slept := slept a |}.

Definition set_messages_total (v : Z) (a : Agent) : Agent :=
  {| _messages := _messages a;
     messages_total := v;
     agent_alerted_about_memory_pressure := agent_alerted_about_memory_pressure a;
     memory := memory a;
     system_prompt := system_prompt a;
     tools := tools a;
     model := model a;
     context_window := context_window a;
     tool_rules_solver := tool_rules_solver a;
     supports_structured_output := supports_structured_output a;
     last_function_response := last_function_response a;
     recall := recall a;
     interface_log := interface_log a;
     clock := clock a;
     next_uuid := next_uuid a;
     api_calls := api_calls a;
     slept := slept a |}.

Definition set_agent_alerted_about_memory_pressure (v : bool) (a : Agent) : Agent :=
  {| _messages := _messages a;
     messages_total := messages_total a;
     agent_alerted_about_memory_pressure := v;
     memory := memory a;
     system_prompt := system_prompt a;
     tools := tools a;
     model := model a;
     context_window := context_window a;
     tool_rules_solver := tool_rules_solver a;
     supports_structured_output := supports_structured_output a;
     last_function_response := last_function_response a;
     recall := recall a;
     interface_log := interface_log a;
     clock := clock a;
     next_uuid := next_uuid a;
     api_calls := api_calls a;
     slept := slept a |}.

Definition set_memory (v : Memory) (a : Agent) : Agent :=
  {| _messages := _messages a;
     messages_total := messages_total a;
     agent_alerted_about_memory_pressure := agent_alerted_about_memory_pressure a;
     memory := v;
     system_prompt := system_prompt a;
     tools := tools a;
     model := model a;
     context_window := context_window a;
     tool_rules_solver := tool_rules_solver a;
     supports_structured_output := supports_structured_output a;
     last_function_response := last_function_response a;
     recall := recall a;
     interface_log := interface_log a;
     clock := clock a;
     next_uuid := next_uuid a;
     api_calls := api_calls a;
     slept := slept a |}.

Definition set_system_prompt (v : string) (a : Agent) : Agent :=
  {| _messages := _messages a;
     messages_total := messages_total a;
     agent_alerted_about_memory_pressure := agent_alerted_about_memory_pressure a;
     memory := memory a;
     system_prompt := v;
     tools := tools a;
     model := model a;
     context_window := context_window a;
     tool_rules_solver := tool_rules_solver a;
     supports_structured_output := supports_structured_output a;
     last_function_response := last_function_response a;
     recall := recall a;
     interface_log := interface_log a;
     clock := clock a;
     next_uuid := next_uuid a;
     api_calls := api_calls a;
     slept := slept a |}.

Definition set_context_window (v : option Z) (a : Agent) : Agent :=
  {| _messages := _messages a;
     messages_total := messages_total a;
     agent_alerted_about_memory_pressure := agent_alerted_about_memory_pressure a;
     memory := memory a;
     system_prompt := system_prompt a;
     tools := tools a;
     model := model a;
     context_window := v;
     tool_rules_solver := tool_rules_solver a;
     supports_structured_output := supports_structured_output a;
     last_function_response := last_function_response a;
     recall := recall a;
     interface_log := interface_log a;
     clock := clock a;
     next_uuid := next_uuid a;
     api_calls := api_calls a;
     slept := slept a |}.

Definition set_tool_rules_solver (v : ToolRulesSolver) (a : Agent) : Agent :=
  {| _messages := _messages a;
     messages_total := messages_total a;
     agent_alerted_about_memory_pressure := agent_alerted_about_memory_pressure a;
     memory := memory a;
     system_prompt := system_prompt a;
     tools := tools a;
     model := model a;
     context_window := context_window a;
     tool_rules_solver := v;
     supports_structured_output := supports_structured_output a;
     last_function_response := last_function_response a;
     recall := recall a;
     interface_log := interface_log a;
     clock := clock a;
     next_uuid := next_uuid a;
     api_calls := api_calls a;
     slept := slept a |}.

Definition set_supports_structured_output (v : bool) (a : Agent) : Agent :=
  {| _messages := _messages a;
     messages_total := messages_total a;
     agent_alerted_about_memory_pressure := agent_alerted_about_memory_pressure a;
     memory := memory a;
     system_prompt := system_prompt a;
     tools := tools a;
     model := model a;
     context_window := context_window a;
     tool_rules_solver := tool_rules_solver a;
     supports_structured_output := v;
     last_function_response := last_function_response a;
     recall := recall a;
     interface_log := interface_log a;
     clock := clock a;
     next_uuid := next_uuid a;
     api_calls := api_calls a;
     slept := slept a |}.

Definition set_last_function_response (v : option string) (a : Agent) : Agent :=
  {| _messages := _messages a;
     messages_total := messages_total a;
     agent_alerted_about_memory_pressure := agent_alerted_about_memory_pressure a;
     memory := memory a;
     system_prompt := system_prompt a;
     tools := tools a;
     model := model a;
     context_window := context_window a;
     tool_rules_solver := tool_rules_solver a;
     supports_structured_output := supports_structured_output a;
     last_function_response := v;
     recall := recall a;
     interface_log := interface_log a;
     clock := clock a;
     next_uuid := next_uuid a;
     api_calls := api_calls a;
     slept := slept a |}.

Definition set_recall (v : list Message) (a : Agent) : Agent :=
  {| _messages := _messages a;
     messages_total := messages_total a;
     agent_alerted_about_memory_pressure := agent_alerted_about_memory_pressure a;
     memory := memory a;
     system_prompt := system_prompt a;
     tools := tools a;
     model := model a;
     context_window := context_window a;
     tool_rules_solver := tool_rules_solver a;
     supports_structured_output := supports_structured_output a;
     last_function_response := last_function_response a;
     recall := v;
     interface_log := interface_log a;
     clock := clock a;
     next_uuid := next_uuid a;
     api_calls := api_calls a;
     slept := slept a |}.

Definition set_interface_log (v : list InterfaceEvent) (a : Agent) : Agent :=
  {| _messages := _messages a;
     messages_total := messages_total a;
     agent_alerted_about_memory_pressure := agent_alerted_about_memory_pressure a;
     memory := memory a;
     system_prompt := system_prompt a;
     tools := tools a;
     model := model a;
     context_window := context_window a;
     tool_rules_solver := tool_rules_solver a;
     supports_structured_output := supports_structured_output a;
     last_function_response := last_function_response a;
     recall := recall a;
     interface_log := v;
     clock := clock a;
     next_uuid := next_uuid a;
     api_calls := api_calls a;
     slept := slept a |}.

Definition set_next_uuid (v : nat) (a : Agent) : Agent :=
  {| _messages := _messages a;
     messages_total := messages_total a;
     agent_alerted_about_memory_pressure := agent_alerted_about_memory_pressure a;
     memory := memory a;
     system_prompt := system_prompt a;
     tools := tools a;
     model := model a;
     context_window := context_window a;
     tool_rules_solver := tool_rules_solver a;
     supports_structured_output := supports_structured_output a;
     last_function_response := last_function_response a;
     recall := recall a;
     interface_log := interface_log a;
     clock := clock a;
     next_uuid := v;
     api_calls := api_calls a;
     slept := slept a |}.

Definition set_api_calls (v : nat) (a : Agent) : Agent :=
  {| _messages := _messages a;
     messages_total := messages_total a;
     agent_alerted_about_memory_pressure := agent_alerted_about_memory_pressure a;
     memory := memory a;
     system_prompt := system_prompt a;
     tools := tools a;
     model := model a;
     context_window := context_window a;
     tool_rules_solver := tool_rules_solver a;
     supports_structured_output := supports_structured_output a;
     last_function_response := last_function_response a;
     recall := recall a;
     interface_log := interface_log a;
     clock := clock a;
     next_uuid := next_uuid a;
     api_calls := v;
     slept := slept a |}.

Definition set_slept (v : list nat) (a : Agent) : Agent :=
  {| _messages := _messages a;
     messages_total := messages_total a;
     agent_alerted_about_memory_pressure := agent_alerted_about_memory_pressure a;
     memory := memory a;
     system_prompt := system_prompt a;
     tools := tools a;
     model := model a;
     context_window := context_window a;
     tool_rules_solver := tool_rules_solver a;
     supports_structured_output := supports_structured_output a;
     last_function_response := last_function_response a;
     recall := recall a;
     interface_log := interface_log a;
     clock := clock a;
     next_uuid := next_uuid a;
     api_calls := api_calls a;
     slept := v |}.

(** ** Collaborators outside agent.py *)

Class Collaborators := {
  (* letta.constants *)
  MESSAGE_SUMMARY_TRUNC_KEEP_N_LAST : Z;
  STRUCTURED_OUTPUT_MODELS : list string;
  IN_CONTEXT_MEMORY_KEYWORD : string;
  LLM_MAX_TOKENS : string -> Z;             (* the table, with its DEFAULT entry *)
  summary_token_target : Z -> Z;            (* int(n * MESSAGE_SUMMARY_TRUNC_TOKEN_FRAC) *)
  (* letta.utils *)
  count_tokens : OpenAIDict -> Z;           (* count_tokens(str(msg)) *)
  parse_json : string -> option Args;       (* None: the parser raised *)
  validate_function_response : string -> Z -> bool -> outcome string;
  united_diff : string -> string -> string;
  str_args : Args -> string;                (* str() of the argument dict *)
  str_json : JsonValue -> string;
  str_int : Z -> string;
  str_lower_strip : string -> string;       (* s.lower().strip() *)
  strftime : Z -> string;
  get_tool_call_id : nat -> string;
  (* letta.system *)
  package_function_response : bool -> string -> string;
  package_summarize_message : string -> Z -> Z -> Z -> string;
  (* letta.memory, letta.schemas.memory *)
  summarize_messages : option Z -> list Message -> outcome string;
  memory_compile : Memory -> string;
  (* str.format_map on the system prompt template *)
  format_map : string -> string -> outcome string;
  (* persistence counters: message_manager.size, agent_manager.passage_size *)
  recall_size : Agent -> Z;
  passage_size : Agent -> Z;
  (* the tool runtime behind execute_tool_and_persist_state *)
  run_tool : string -> Args -> Tool -> Agent -> outcome string * Agent;
  (* letta.llm_api.llm_api_tools.create: the reply to the n-th call, given
     the message sequence, the allowed functions and the forced tool *)
  create : nat -> list Message -> list string -> option string -> outcome ChatCompletionResponse
}.

(** ** State and exceptions *)

Definition M (A : Type) : Type := Agent -> Result A * Agent.

Definition ret {A} (x : A) : M A := fun a => (Ok x, a).

Definition raise {A} (e : exn) : M A := fun a => (Raise e, a).

Definition bind {A B} (c : M A) (k : A -> M B) : M B :=
  fun a => match c a with
           | (Ok x, a') => k x a'
           | (Raise e, a') => (Raise e, a')
           end.

Definition gets {A} (f : Agent -> A) : M A := fun a => (Ok (f a), a).

Definition modify (f : Agent -> Agent) : M unit := fun a => (Ok tt, f a).

Declare Scope agent_scope.
Delimit Scope agent_scope with agent.
Notation "x <- c ;; k" := (bind c (fun x => k))
  (at level 100, c at next level, right associativity) : agent_scope.
Notation "c ;; k" := (bind c (fun _ => k))
  (at level 100, right associativity) : agent_scope.
Local Open Scope agent_scope.

(** [assert b] *)
Definition py_assert (b : bool) : M unit :=
  if b then ret tt else raise AssertionError.

(** [l[i]] *)
Definition getitem {A} (l : list A) (i : Z) : M A :=
  match Py.index l i with
  | Some x => ret x
  | None => raise IndexError
  end.

Definition of_result {A} (r : Result A) : M A :=
  match r with
  | Ok x => ret x
  | Raise e => raise e
  end.

Definition of_outcome {A} (o : outcome A) : M A :=
  match o with
  | Returned x => ret x
  | Faulted b d => raise (External b d)
  end.

(** The final state and the result of running a method on an agent. *)
Definition exec {A} (c : M A) (a : Agent) : Agent := snd (c a).
Definition eval {A} (c : M A) (a : Agent) : Result A := fst (c a).

(** ** Messages *)

(** Modelled from the spec: [Message.to_openai_dict] and
    [Message.dict_to_message] of [letta.schemas.message] are not in
    [agent.py].  Section 3 gives the record: role, text, tool call, id and
    creation time; the dict carries role, content, name and tool-call data. *)
Definition to_openai_dict (m : Message) : OpenAIDict :=
  {| d_role := role m;
     d_content := text m;
     d_name := msg_name m;
     d_tool_calls := msg_tool_calls m;
     d_tool_call_id := msg_tool_call_id m |}.

(** Modelled from the spec: [Message.dict_to_message] builds the record from
    the dict, with the id it is given or a fresh one, stamped with the
    current time. *)
Definition dict_to_message (id : option string) (d : OpenAIDict) : M Message :=
  fun a =>
    let mk i := {| msg_id := i;
                   role := d_role d;
                   text := d_content d;
                   msg_name := d_name d;
                   msg_tool_calls := d_tool_calls d;
                   msg_tool_call_id := d_tool_call_id d;
                   created_at := clock a |} in
    match id with
    | Some s => (Ok (mk (GivenId s)), a)
    | None => (Ok (mk (FreshId (next_uuid a))), set_next_uuid (S (next_uuid a)) a)
    end.

Definition plain_dict (r : MessageRole) (c : string) : OpenAIDict :=
  {| d_role := r; d_content := Some c; d_name := None;
     d_tool_calls := None; d_tool_call_id := None |}.

Definition tool_dict (name content : string) (call_id : option string) : OpenAIDict :=
  {| d_role := tool; d_content := Some content; d_name := Some name;
     d_tool_calls := None; d_tool_call_id := call_id |}.

(** [response_message.model_dump()] *)
Definition model_dump (r : ChatCompletionMessage) : OpenAIDict :=
  {| d_role := cm_role r; d_content := content r; d_name := None;
     d_tool_calls := tool_calls r; d_tool_call_id := None |}.

(** The [messages] property. *)
Definition messages (a : Agent) : list OpenAIDict :=
  map to_openai_dict (_messages a).

(** [message_manager.create_many_messages] / [create_message] *)
Definition create_many_messages (ms : list Message) : M unit :=
  modify (fun a => set_recall (recall a ++ ms) a).

Definition tell (e : InterfaceEvent) : M unit :=
  modify (fun a => set_interface_log (interface_log a ++ [e]) a).

Section WithCollaborators.

Context `{Collaborators}.

(** ** Context window manager *)

Definition _trim_messages (num : Z) : M unit :=
  ms <- gets _messages ;;
  m0 <- getitem ms 0 ;;
  modify (set_messages ([m0] ++ Py.slice_from ms num)).

Definition _prepend_to_messages (added_messages : list Message) : M unit :=
  create_many_messages added_messages ;;
  ms <- gets _messages ;;
  m0 <- getitem ms 0 ;;
  modify (set_messages ([m0] ++ added_messages ++ Py.slice_from ms 1)) ;;
  modify (fun a => set_messages_total (messages_total a + Py.len added_messages) a).

Definition _append_to_messages (added_messages : list Message) : M unit :=
  create_many_messages added_messages ;;
  ms <- gets _messages ;;
  modify (set_messages (ms ++ added_messages)) ;;
  modify (fun a => set_messages_total (messages_total a + Py.len added_messages) a).

Definition _swap_system_message_in_buffer (new_system_message : string) : M unit :=
  new_system_message_obj <- dict_to_message None (plain_dict system new_system_message) ;;
  py_assert (role_eqb (role new_system_message_obj) system) ;;
  ms <- gets _messages ;;
  m0 <- getitem ms 0 ;;
  py_assert (role_eqb (role m0) system) ;;
  create_many_messages [new_system_message_obj] ;;
  modify (set_messages ([new_system_message_obj] ++ Py.slice_from ms 1)).

(** ** Compaction *)

(** The front-to-back walk: [for i, msg in enumerate(candidates)]. *)
Fixpoint walk_cutoff (candidates : list OpenAIDict) (token_counts : list Z)
    (desired : Z) (i : nat) (tokens_so_far : Z) (cutoff : nat) : Result nat :=
  match candidates with
  | [] => Ok cutoff
  | _ :: rest =>
      match token_counts !! i with
      | None => Raise IndexError
      | Some t =>
          let tokens_so_far := (tokens_so_far + t)%Z in
          if (desired <? tokens_so_far)%Z then Ok i
          else walk_cutoff rest token_counts desired (S i) tokens_so_far i
      end
  end.

(** The [try: ... except IndexError: pass] block: an index error at
    [new_cutoff] is caught before [cutoff] is assigned. *)
Definition shift_past_user (msgs : list OpenAIDict) (cutoff : nat) : nat :=
  match msgs !! cutoff with
  | None => cutoff
  | Some m =>
      if role_eqb (d_role m) user then
        match msgs !! S cutoff with
        | None => cutoff
        | Some _ => S cutoff
        end
      else cutoff
  end.

Definition is_tool_or_function (r : MessageRole) : bool :=
  role_eqb r tool || role_eqb r function.

(** [while messages[cutoff]["role"] in ["tool", "function"] and cutoff < len(messages)].
    The index is evaluated before the bound is compared.  [remaining] counts
    down from [len(messages) - cutoff]; see [skip_tool_results_unfold]. *)
Fixpoint skip_tool_results (remaining : nat) (msgs : list OpenAIDict) (cutoff : nat) : Result nat :=
  match msgs !! cutoff with
  | None => Raise IndexError
  | Some m =>
      if is_tool_or_function (d_role m) && (cutoff <? length msgs)%nat then
        match remaining with
        | S r => skip_tool_results r msgs (S cutoff)
        | O => Raise IndexError
        end
      else Ok cutoff
  end.

Definition not_enough (msg : string) (n : Z) : M unit :=
  a <- gets id ;;
  raise (ContextWindowExceededError msg n (Py.len (messages a)) MESSAGE_SUMMARY_TRUNC_KEEP_N_LAST).

Definition default_context_window : M unit :=
  cw <- gets context_window ;;
  match cw with
  | None => modify (fun a => set_context_window (Some (LLM_MAX_TOKENS (model a))) a)
  | Some _ => ret tt
  end.

(** The slices that turn the buffer (or its token counts) into the candidates:
    [l[1:]], then [[:-MESSAGE_SUMMARY_TRUNC_KEEP_N_LAST]] when preserving. *)
Definition candidates_of {A} (preserve_last_N_messages : bool) (l : list A) : list A :=
  let c := Py.slice_from l 1 in
  if preserve_last_N_messages
  then Py.slice_to c (- MESSAGE_SUMMARY_TRUNC_KEEP_N_LAST)
  else c.

(** The cutoff: the walk, the shift for the system message, the shift past a
    user message and the shift past tool results. *)
Definition determine_cutoff (preserve_last_N_messages disallow_tool_as_first : bool)
    (msgs : list OpenAIDict) : Result nat :=
  let token_counts := map count_tokens msgs in
  let message_buffer_token_count := Py.sum (Py.slice_from token_counts 1) in
  let desired_token_count_to_summarize := summary_token_target message_buffer_token_count in
  let candidate_messages_to_summarize := candidates_of preserve_last_N_messages msgs in
  let token_counts := candidates_of preserve_last_N_messages token_counts in
  match walk_cutoff candidate_messages_to_summarize token_counts
          desired_token_count_to_summarize 0 0 0 with
  | Raise e => Raise e
  | Ok cutoff =>
      let cutoff := S cutoff in
      let cutoff := shift_past_user msgs cutoff in
      if disallow_tool_as_first
      then skip_tool_results (length msgs - cutoff) msgs cutoff
      else Ok cutoff
  end.

Definition summarize_messages_inplace
    (preserve_last_N_messages disallow_tool_as_first : bool) : M unit :=
  msgs <- gets messages ;;
  m0 <- getitem msgs 0 ;;
  py_assert (role_eqb (d_role m0) system) ;;
  let candidate_messages_to_summarize := candidates_of preserve_last_N_messages msgs in
  (if (length candidate_messages_to_summarize =? 0)%nat
   then not_enough "Not enough messages to compress for summarization"
          (Py.len candidate_messages_to_summarize)
   else ret tt) ;;
  cutoff <- of_result (determine_cutoff preserve_last_N_messages disallow_tool_as_first msgs) ;;
  ms <- gets _messages ;;
  let message_sequence_to_summarize := Py.slice ms 1 cutoff in
  (if (length message_sequence_to_summarize <=? 1)%nat
   then not_enough "Not enough messages to compress for summarization after determining cutoff"
          (Py.len message_sequence_to_summarize)
   else ret tt) ;;
  default_context_window ;;
  cw <- gets context_window ;;
  summary <- of_outcome (summarize_messages cw message_sequence_to_summarize) ;;
  all_time_message_count <- gets messages_total ;;
  let remaining_message_count := Py.len (Py.slice_from msgs (Z.of_nat cutoff)) in
  let hidden_message_count := (all_time_message_count - remaining_message_count)%Z in
  let summary_message_count := Py.len message_sequence_to_summarize in
  let summary_message :=
    package_summarize_message summary summary_message_count hidden_message_count
      all_time_message_count in
  _trim_messages (Z.of_nat cutoff) ;;
  m <- dict_to_message None (plain_dict user summary_message) ;;
  _prepend_to_messages [m] ;;
  modify (set_agent_alerted_about_memory_pressure false).

(** ** System message *)

Definition nl : string := String (Ascii.ascii_of_nat 10) EmptyString.

Definition compile_memory_metadata_block (memory_edit_timestamp : Z) : M string :=
  a <- gets id ;;
  let timestamp_str := strftime memory_edit_timestamp in
  ret (String.concat nl
         [ "### Memory [last modified: " +:+ timestamp_str +:+ "]";
           str_int (recall_size a) +:+
             " previous messages between you and the user are stored in recall memory (use functions to access them)";
           str_int (passage_size a) +:+
             " total memories you created are stored in archival memory (use functions to access them)";
           nl +:+ "Core memory shown below (limited in size, additional information stored in archival / recall memory):" ]).

(** Called with [user_defined_variables=None], [append_icm_if_missing=True]
    and the default template format. *)
Definition compile_system_message (system_prompt : string) (in_context_memory : Memory)
    (in_context_memory_last_edit : Z) : M string :=
  memory_metadata_string <- compile_memory_metadata_block in_context_memory_last_edit ;;
  let full_memory_string := memory_metadata_string +:+ nl +:+ memory_compile in_context_memory in
  let memory_variable_string := "{" +:+ IN_CONTEXT_MEMORY_KEYWORD +:+ "}" in
  let system_prompt :=
    if Py.contains memory_variable_string system_prompt then system_prompt
    else system_prompt +:+ nl +:+ memory_variable_string in
  match format_map system_prompt full_memory_string with
  | Returned formatted_prompt => ret formatted_prompt
  | Faulted _ _ => raise (ValueError "Failed to format system prompt")
  end.

Definition rebuild_system_prompt (force update_timestamp : bool) : M unit :=
  msgs <- gets messages ;;
  curr_system_message <- getitem msgs 0 ;;
  mem <- gets memory ;;
  let curr_memory_str := memory_compile mem in
  match d_content curr_system_message with
  | None => raise TypeError
  | Some curr_content =>
      if Py.contains curr_memory_str curr_content && negb force then ret tt
      else
        memory_edit_timestamp <-
          (if update_timestamp then gets clock
           else (ms <- gets _messages ;; m0 <- getitem ms 0 ;; ret (created_at m0))) ;;
        sys <- gets system_prompt ;;
        new_system_message_str <- compile_system_message sys mem memory_edit_timestamp ;;
        let diff := united_diff curr_content new_system_message_str in
        if (0 <? String.length diff)%nat then
          _swap_system_message_in_buffer new_system_message_str ;;
          msgs' <- gets messages ;;
          m0' <- getitem msgs' 0 ;;
          py_assert (bool_decide (d_content m0' = Some new_system_message_str))
        else ret tt
  end.

(** ** Tool rules at construction *)

Definition check_tool_rules : M unit :=
  mdl <- gets model ;;
  solver <- gets tool_rules_solver ;;
  if negb (bool_decide (mdl ∈ STRUCTURED_OUTPUT_MODELS)) then
    (if (1 <? length (init_tool_rules solver))%nat
     then raise (ValueError "Multiple initial tools are not supported for non-structured models. Please use only one initial tool rule.")
     else ret tt) ;;
    modify (set_supports_structured_output false)
  else modify (set_supports_structured_output true).

(** [Agent.__init__] up to [self.check_tool_rules()]; [rest] is the remainder
    of the constructor (managers, message buffer, counters, first save). *)
Definition Agent__init__ (tool_rules : option (list ToolRule)) (rest : M unit) : M unit :=
  let tool_rules := match tool_rules with None => [] | Some rs => rs end in
  modify (set_tool_rules_solver (Solver.new tool_rules)) ;;
  check_tool_rules ;;
  rest.

(** ** Model call with retries *)

Definition finish_reason_ok (r : string) : bool :=
  bool_decide (r ∈ ["stop"; "function_call"; "tool_calls"]).

Definition length_fault : exn :=
  RuntimeError "Finish reason was length (maximum context length)".

(** The checks on a reply inside the [try] block. *)
Definition check_response (response : ChatCompletionResponse) : Result ChatCompletionResponse :=
  match choices response with
  | [] => Raise (ValueError "API call returned an empty message")
  | None :: _ => Raise (ValueError "API call returned an empty message")
  | Some c :: _ =>
      if negb (finish_reason_ok (finish_reason c)) then
        if String.eqb (finish_reason c) "length"
        then Raise length_fault
        else Raise (ValueError "Bad finish reason from API")
      else Ok response
  end.

Definition attempt_call (message_sequence : list Message) (functions : list string)
    (forced : option string) : M ChatCompletionResponse :=
  n <- gets api_calls ;;
  modify (set_api_calls (S n)) ;;
  response <- of_outcome (create n message_sequence functions forced) ;;
  of_result (check_response response).

Definition retries_exhausted : exn :=
  Exception "Retries exhausted and no valid response received.".

(** [for attempt in range(1, empty_response_retry_limit + 1)]; [remaining]
    is the number of values of [attempt] still to come.  The sleep of
    [min(backoff_factor * 2 ** (attempt - 1), max_delay)] seconds is recorded
    by its attempt number. *)
Fixpoint retry_loop (remaining : nat) (attempt limit : Z) (message_sequence : list Message)
    (functions : list string) (forced : option string)
    : M ChatCompletionResponse :=
  match remaining with
  | O => raise retries_exhausted
  | S remaining' =>
      fun a =>
        match attempt_call message_sequence functions forced a with
        | (Ok response, a') => (Ok response, a')
        | (Raise e, a') =>
            if is_ValueError e then
              if (limit <=? attempt)%Z then raise retries_exhausted a'
              else (modify (fun s => set_slept (slept s ++ [Z.to_nat attempt]) s) ;;
                    retry_loop remaining' (attempt + 1) limit message_sequence
                      functions forced) a'
            else (Raise e, a')
        end
  end.

(** The functions offered to the model and the tool it is forced to call. *)
Definition allowed_functions (a : Agent) : list string :=
  let allowed_tool_names := Solver.get_allowed_tool_names (tool_rules_solver a) in
  let agent_state_tool_jsons := map tool_name (tools a) in
  match allowed_tool_names with
  | [] => agent_state_tool_jsons
  | _ => List.filter (fun n => bool_decide (n ∈ allowed_tool_names)) agent_state_tool_jsons
  end.

Definition force_tool_call (a : Agent) (step_count : option Z) : option string :=
  let solver := tool_rules_solver a in
  let allowed_tool_names := Solver.get_allowed_tool_names solver in
  match step_count with
  | None => None
  | Some k =>
      if (k =? 0)%Z && negb (supports_structured_output a)
         && (0 <? length (init_tool_rules solver))%nat
      then head (init_tool_rules solver)
      else if (0 <? k)%Z && (length allowed_tool_names =? 1)%nat
           then head allowed_tool_names
           else None
  end.

Definition _get_ai_reply (message_sequence : list Message) (empty_response_retry_limit : Z)
    (step_count : option Z) : M ChatCompletionResponse :=
  a <- gets id ;;
  retry_loop (Z.to_nat empty_response_retry_limit) 1 empty_response_retry_limit
    message_sequence (allowed_functions a) (force_tool_call a step_count).

(** ** Tool dispatch *)

Definition dict_get (k : string) (d : Args) : option JsonValue :=
  snd <$> List.find (fun kv => String.eqb (fst kv) k) d.

Definition dict_del (k : string) (d : Args) : Args :=
  List.filter (fun kv => negb (String.eqb (fst kv) k)) d.

(** Python truthiness of an optional str and of a JSON value. *)
Definition truthy (s : option string) : bool :=
  match s with
  | Some s => negb (String.eqb s "")
  | None => false
  end.

Definition json_truthy (v : JsonValue) : bool :=
  match v with
  | JNull => false
  | JBool b => b
  | JStr s => negb (String.eqb s "")
  | JNum z => negb (z =? 0)%Z
  end.

Definition json_text (v : JsonValue) : option string :=
  match v with
  | JNull => None
  | JStr s => Some s
  | _ => Some (str_json v)
  end.

(** [request_heartbeat]: a bool is kept, the string "true" (any case, padded)
    becomes [True], everything else becomes [False]. *)
Definition parse_heartbeat (v : option JsonValue) : bool :=
  match v with
  | Some (JBool b) => b
  | Some (JStr s) => String.eqb (str_lower_strip s) "true"
  | _ => false
  end.

Definition str_exn (e : exn) : string :=
  match e with
  | ValueError m | RuntimeError m | Exception m => m
  | ContextWindowExceededError m _ _ _ => m
  | External _ d => d
  | _ => ""
  end.

(** [except Exception as e] around a block. *)
Definition catch {A} (c : M A) : M (Result A) :=
  fun a => match c a with
           | (Ok x, a') => (Ok (Ok x), a')
           | (Raise e, a') => (Ok (Raise e), a')
           end.

(** The body of [execute_tool_and_persist_state] ([exec] of the tool source,
    coercion of dict arguments, base-tool call or sandbox run, friendly error
    text when the tool raises) is the collaborator [run_tool]: what it
    returns or raises, and what it does to the agent. *)
Definition execute_tool_and_persist_state (function_name : string) (function_args : Args)
    (target_letta_tool : Tool) : M string :=
  fun a => let '(o, a') := run_tool function_name function_args target_letta_tool a in
           of_outcome o a'.

(** [for t in self.agent_state.tools: if t.name == function_name: target = t] *)
Definition find_tool (tls : list Tool) (function_name : string) : option Tool :=
  fold_left (fun target t => if String.eqb (tool_name t) function_name then Some t else target)
    tls None.

Definition paging_tools : list string :=
  ["conversation_search"; "conversation_search_date"; "archival_memory_search"].

(** The shared shape of failure cases 1 and 2. *)
Definition tool_error (msgs : list Message) (function_name tool_call_id error_msg : string)
    : M (list Message * bool * bool) :=
  let function_response := package_function_response false error_msg in
  m <- dict_to_message None (tool_dict function_name function_response (Some tool_call_id)) ;;
  tell (function_message ("Error: " +:+ error_msg)) ;;
  ret (msgs ++ [m], false, true).

Definition first_tool_call_only (tcs : list ToolCall) : list ToolCall :=
  match tcs with
  | tc :: _ :: _ => [tc]
  | _ => tcs
  end.

Definition with_tool_calls (tcs : list ToolCall) (r : ChatCompletionMessage) : ChatCompletionMessage :=
  {| cm_role := cm_role r; content := content r;
     tool_calls := Some tcs; function_call := function_call r |}.

Definition with_id (i : string) (tc : ToolCall) : ToolCall :=
  {| tc_id := Some i; tc_function := tc_function tc |}.

(** The tool rules, applied to the heartbeat after the solver is updated. *)
Definition apply_tool_rules (function_name : option string) (heartbeat_request : bool) : M bool :=
  modify (fun a => set_tool_rules_solver
                     (Solver.update_tool_usage function_name (tool_rules_solver a)) a) ;;
  solver <- gets tool_rules_solver ;;
  if Solver.has_children_tools solver function_name then ret true
  else if Solver.is_terminal_tool solver function_name then ret false
  else ret heartbeat_request.

(** The tool-call branch from "Step 3: call the function" on. *)
Definition dispatch_tool_call (msgs : list Message) (nonnull_content : bool)
    (fc : FunctionCall) (tool_call_id : string) : M (list Message * bool * bool) :=
  let function_name := fc_name fc in
  tls <- gets tools ;;
  match find_tool tls function_name with
  | None => tool_error msgs function_name tool_call_id ("No function named " +:+ function_name)
  | Some target_letta_tool =>
      match parse_json (fc_arguments fc) with
      | None =>
          tool_error msgs function_name tool_call_id
            ("Error parsing JSON for function '" +:+ function_name +:+ "' arguments: "
               +:+ fc_arguments fc)
      | Some function_args =>
          let inner := dict_get "inner_thoughts" function_args in
          let function_args := dict_del "inner_thoughts" function_args in
          (match inner with
           | Some v => if json_truthy v && negb nonnull_content
                       then tell (internal_monologue (json_text v)) else ret tt
           | None => ret tt
           end) ;;
          let heartbeat_request := parse_heartbeat (dict_get "request_heartbeat" function_args) in
          let function_args := dict_del "request_heartbeat" function_args in
          tell (function_message
                  ("Running " +:+ function_name +:+ "(" +:+ str_args function_args +:+ ")")) ;;
          r <- catch
                 (function_response <-
                    execute_tool_and_persist_state function_name function_args target_letta_tool ;;
                  let truncate := negb (bool_decide (function_name ∈ paging_tools)) in
                  of_outcome (validate_function_response function_response
                                (return_char_limit target_letta_tool) truncate)) ;;
          let function_args := dict_del "self" function_args in
          let ran := "Ran " +:+ function_name +:+ "(" +:+ str_args function_args +:+ ")" in
          match r with
          | Raise e =>
              let error_msg := "Error calling function " +:+ function_name +:+ ": " +:+ str_exn e in
              let function_response := package_function_response false error_msg in
              modify (set_last_function_response (Some function_response)) ;;
              m <- dict_to_message None
                     (tool_dict function_name function_response (Some tool_call_id)) ;;
              tell (function_message ran) ;;
              tell (function_message ("Error: " +:+ error_msg)) ;;
              ret (msgs ++ [m], false, true)
          | Ok function_response_string =>
              let function_response := package_function_response true function_response_string in
              m <- dict_to_message None
                     (tool_dict function_name function_response (Some tool_call_id)) ;;
              tell (function_message ran) ;;
              tell (function_message ("Success: " +:+ function_response_string)) ;;
              modify (set_last_function_response (Some function_response)) ;;
              rebuild_system_prompt false true ;;
              hb <- apply_tool_rules (Some function_name) heartbeat_request ;;
              ret (msgs ++ [m], hb, false)
          end
      end
  end.

Definition wants_tool_call (r : ChatCompletionMessage) : bool :=
  match function_call r, tool_calls r with
  | Some _, _ => true
  | None, Some (_ :: _) => true
  | None, _ => false
  end.

Definition _handle_ai_response (response_message : ChatCompletionMessage)
    (override_tool_call_id : bool) (response_message_id : option string)
    : M (list Message * bool * bool) :=
  (match response_message_id with
   | Some i => py_assert (Py.is_prefix "message-" i)
   | None => ret tt
   end) ;;
  if wants_tool_call response_message then
    match function_call response_message, tool_calls response_message with
    | Some _, _ => raise DeprecationWarning
    | None, None | None, Some [] => raise AssertionError
    | None, Some (tc0 :: more) =>
        let tcs := first_tool_call_only (tc0 :: more) in
        tc_and_id <-
          (if override_tool_call_id then
             n <- gets next_uuid ;;
             modify (set_next_uuid (S n)) ;;
             ret (with_id (get_tool_call_id n) tc0, get_tool_call_id n)
           else
             match tc_id tc0 with
             | Some i => ret (tc0, i)
             | None => raise AssertionError
             end) ;;
        let '(tc, tool_call_id) := tc_and_id in
        let response_message := with_tool_calls (tc :: tail tcs) response_message in
        m <- dict_to_message response_message_id (model_dump response_message) ;;
        let nonnull_content := truthy (content response_message) in
        (if nonnull_content then tell (internal_monologue (content response_message))
         else ret tt) ;;
        dispatch_tool_call [m] nonnull_content (tc_function tc) tool_call_id
    end
  else
    m <- dict_to_message response_message_id (model_dump response_message) ;;
    tell (internal_monologue (content response_message)) ;;
    rebuild_system_prompt false true ;;
    hb <- apply_tool_rules None false ;;
    ret ([m], hb, false).

(** ** Chaining in [Agent.step] *)

Inductive ChainAction :=
| Break
| ContinueTokenWarning
| ContinueFunctionFailed
| ContinueHeartbeat.

(** The "Chain stops" / "Chain handlers" ladder at the end of one turn of the
    [while True] loop; [counter] has been incremented already. *)
Definition chain_action (chaining : bool) (max_chaining_steps : option Z) (counter : Z)
    (token_warning function_failed heartbeat_request : bool) : ChainAction :=
  if negb chaining then Break
  else if match max_chaining_steps with
          | Some m => (m <? counter)%Z
          | None => false
          end then Break
  else if token_warning then ContinueTokenWarning
  else if function_failed then ContinueFunctionFailed
  else if heartbeat_request then ContinueHeartbeat
  else Break.

End WithCollaborators.

(** ** Vocabulary of the statements *)

(** The buffer invariant: the first message has role system. *)
Definition system_first (a : Agent) : Prop :=
  role <$> head (_messages a) = Some system.

Section Vocabulary.

Context `{Collaborators}.

(** The candidate set in words: the buffer minus the system message and, when
    preservation is on, minus the last N messages. *)
Definition candidate_set (preserve : bool) (a : Agent) : list OpenAIDict :=
  let rest := tail (messages a) in
  if preserve
  then take (length rest - Z.to_nat MESSAGE_SUMMARY_TRUNC_KEEP_N_LAST) rest
  else rest.

(** Total token count of the buffer, counted as the compaction counts. *)
Definition buffer_tokens (a : Agent) : Z :=
  Py.sum (map count_tokens (messages a)).

(** The compiled memory occurs in the current system message. *)
Definition memory_in_system_message (a : Agent) : Prop :=
  exists m c, head (_messages a) = Some m /\ text m = Some c /\
              Py.contains (memory_compile (memory a)) c = true.

(** The ways one call of [summarize_messages_inplace] on agent [a] can end:
    the result and the agent afterwards. *)
Inductive compaction_outcome (p d : bool) (a : Agent) : Result unit -> Agent -> Prop :=
| co_no_candidates msg n t k :
    candidates_of p (messages a) = [] ->
    compaction_outcome p d a (Raise (ContextWindowExceededError msg n t k)) a
| co_cutoff_fault e :
    candidates_of p (messages a) <> [] ->
    determine_cutoff p d (messages a) = Raise e ->
    compaction_outcome p d a (Raise e) a
| co_small_window c msg n t k :
    candidates_of p (messages a) <> [] ->
    determine_cutoff p d (messages a) = Ok c ->
    (length (Py.slice (_messages a) 1 c) <= 1)%nat ->
    compaction_outcome p d a (Raise (ContextWindowExceededError msg n t k)) a
| co_summarizer_fault c b descr a' :
    candidates_of p (messages a) <> [] ->
    determine_cutoff p d (messages a) = Ok c ->
    (1 < length (Py.slice (_messages a) 1 c))%nat ->
    _messages a' = _messages a ->
    compaction_outcome p d a (Raise (External b descr)) a'
| co_compacted c m0 summary a' :
    candidates_of p (messages a) <> [] ->
    determine_cutoff p d (messages a) = Ok c ->
    (1 < length (Py.slice (_messages a) 1 c))%nat ->
    head (_messages a) = Some m0 ->
    role summary = user ->
    _messages a' = m0 :: summary :: drop c (_messages a) ->
    compaction_outcome p d a (Ok tt) a'.

End Vocabulary.

(** The fault compaction raises when there is too little to summarize. *)
Definition is_not_enough_messages {A} (r : Result A) : Prop :=
  match r with
  | Raise (ContextWindowExceededError _ _ _ _) => True
  | _ => False
  end.

Definition is_InitToolRule (r : ToolRule) : bool :=
  match r with
  | InitToolRule _ => true
  | _ => false
  end.

(** The check on [response_message_id] at the top of [_handle_ai_response]. *)
Definition message_id_ok (rid : option string) : bool :=
  match rid with
  | Some i => Py.is_prefix "message-" i
  | None => true
  end.

(** The heartbeat flag a call of [_handle_ai_response] returned, if it returned. *)
Definition returned_heartbeat (r : Result (list Message * bool * bool)) : option bool :=
  match r with
  | Ok (_, heartbeat_request, _) => Some heartbeat_request
  | Raise _ => None
  end.

Definition returned_failure (r : Result (list Message * bool * bool)) : option bool :=
  match r with
  | Ok (_, _, function_failed) => Some function_failed
  | Raise _ => None
  end.

(** ** A concrete environment for examples *)

Module Demo.

Definition content_length (d : OpenAIDict) : Z :=
  match d_content d with
  | Some s => Z.of_nat (String.length s)
  | None => 0
  end.

Definition reply (reason : string) : ChatCompletionResponse :=
  {| resp_id := "message-0";
     choices := [Some {| finish_reason := reason;
                         message := {| cm_role := assistant; content := Some "hello";
                                       tool_calls := None; function_call := None |} |}];
     total_tokens := 10 |}.

Definition env : Collaborators :=
  {| MESSAGE_SUMMARY_TRUNC_KEEP_N_LAST := 3;
     STRUCTURED_OUTPUT_MODELS := ["gpt-4o"];
     IN_CONTEXT_MEMORY_KEYWORD := "CORE_MEMORY";
     LLM_MAX_TOKENS := fun _ => 8192%Z;
     summary_token_target := fun n => (n * 3 / 4)%Z;
     count_tokens := content_length;
     parse_json := fun s => if String.eqb s "{}" then Some []
                            else if String.eqb s "{hb}" then Some [("request_heartbeat", JBool true)]
                            else None;
     validate_function_response := fun s _ _ => Returned s;
     united_diff := fun x y => if String.eqb x y then "" else "changed";
     str_args := fun _ => "{}";
     str_json := fun _ => "json";
     str_int := fun _ => "0";
     str_lower_strip := fun s => s;
     strftime := fun _ => "now";
     get_tool_call_id := fun _ => "call-0";
     package_function_response :=
       fun ok s => (if ok then "OK: " else "Failed: ") +:+ s;
     package_summarize_message := fun s _ _ _ => "Summary of earlier messages: " +:+ s;
     summarize_messages := fun _ _ => Returned "the user greeted the assistant";
     memory_compile := fun m => String.concat "" (map value m);
     format_map := fun template mem => Returned (template +:+ mem);
     recall_size := fun _ => 0%Z;
     passage_size := fun _ => 0%Z;
     run_tool := fun _ _ _ a => (Returned "done", a);
     create := fun _ _ _ _ => Returned (reply "length") |}.

Definition msg (n : nat) (r : MessageRole) (c : string) : Message :=
  {| msg_id := GivenId ("message-" +:+ String (Ascii.ascii_of_nat (48 + n)) EmptyString);
     role := r; text := Some c; msg_name := None;
     msg_tool_calls := None; msg_tool_call_id := None; created_at := 0 |}.

Definition agent (mdl : string) (tls : list Tool) (mem : Memory) (ms : list Message) : Agent :=
  {| _messages := ms;
     messages_total := Py.len ms - 1;
     agent_alerted_about_memory_pressure := false;
     memory := mem;
     system_prompt := "You are a helpful agent.";
     tools := tls;
     model := mdl;
     context_window := Some 8192%Z;
     tool_rules_solver := Solver.new [];
     supports_structured_output := false;
     last_function_response := None;
     recall := [];
     interface_log := [];
     clock := 0;
     next_uuid := 0;
     api_calls := 0;
     slept := [] |}.

Definition send_message : Tool :=
  {| tool_name := "send_message"; return_char_limit := 1000 |}.

(** A buffer whose tail is tool results only. *)
Definition tool_tail : Agent :=
  agent "gpt-4" [send_message] []
    [ msg 0 system "system"; msg 1 assistant "calling"; msg 2 tool "result";
      msg 3 tool "result"; msg 4 tool "result"; msg 5 tool "result" ].

(** A short exchange after a tool call. *)
Definition after_tool_call : Agent :=
  agent "gpt-4" [send_message] []
    [ msg 0 system "system"; msg 1 user "hi"; msg 2 assistant "calling"; msg 3 tool "result" ].

(** Seven messages, short ones first. *)
Definition short_chat : Agent :=
  agent "gpt-4" [send_message] []
    [ msg 0 system "system"; msg 1 user "hi"; msg 2 assistant "yo"; msg 3 assistant "ok";
      msg 4 user "more text here"; msg 5 assistant "and more here"; msg 6 user "and the end" ].


Definition call (name args : string) : ToolCall :=
  {| tc_id := Some "call-1";
     tc_function := {| fc_name := name; fc_arguments := args |} |}.

Definition two_calls : ChatCompletionMessage :=
  {| cm_role := assistant; content := Some "thinking";
     tool_calls := Some [call "send_message" "{}"; call "does_not_exist" "{}"];
     function_call := None |}.


Definition human (v : string) : Block :=
  {| label := "human"; value := v; limit := 100 |}.

(** The system message already shows the memory. *)
Definition remembering : Agent :=
  agent "gpt-4" [send_message] [human "Bob likes tea"]
    [ msg 0 system "You are a helpful agent. Bob likes tea"; msg 1 user "hi" ].

(** The memory was edited after the system message was built. *)
Definition stale : Agent :=
  agent "gpt-4" [send_message] [human "Bob likes coffee"]
    [ msg 0 system "You are a helpful agent. Bob likes tea"; msg 1 user "hi" ].

End Demo.

(** * Further methods of the agent *)

(** ** More collaborators *)

Class Services := {
  (* message_manager.delete_message_by_id, on the stored messages: the store
     without the message, or a fault *)
  delete_message_by_id : MessageId -> list Message -> outcome (list Message);
  (* json.loads on the text of a tool message: the dict, [None] for a JSON
     value that is not a dict, or a JSONDecodeError *)
  json_loads : string -> outcome (option Args);
  (* letta.system, letta.constants: the texts of the chaining messages, which
     carry the time *)
  get_token_limit_warning : Z -> string;
  get_heartbeat : string -> Z -> string;
  FUNC_FAILED_HEARTBEAT_MESSAGE : string;
  REQ_HEARTBEAT_MESSAGE : string;
  (* AgentManager().update_agent, given the message ids that update_state
     collects: done, or a fault *)
  update_agent : list MessageId -> outcome unit
}.

Record UsageStatistics := {
  completion_tokens : Z;
  prompt_tokens : Z;
  usage_total_tokens : Z
}.

(** [total_usage += usage] *)
Definition usage_add (u v : UsageStatistics) : UsageStatistics :=
  {| completion_tokens := completion_tokens u + completion_tokens v;
     prompt_tokens := prompt_tokens u + prompt_tokens v;
     usage_total_tokens := usage_total_tokens u + usage_total_tokens v |}.

Definition usage_zero : UsageStatistics :=
  {| completion_tokens := 0; prompt_tokens := 0; usage_total_tokens := 0 |}.

Record AgentStepResponse := {
  sr_messages : list Message;
  sr_heartbeat_request : bool;
  sr_function_failed : bool;
  sr_in_context_memory_warning : bool;
  sr_usage : UsageStatistics
}.

Record LettaUsageStatistics := {
  lu_usage : UsageStatistics;
  lu_step_count : Z
}.

Section FurtherMethods.

Context `{Collaborators} `{Services}.

(** ** Last function response *)

(** [for i in range(len(self._messages) - 1, -1, -1)], on the reversed
    buffer.  A JSON value that is not a dict has no [get]: the
    AttributeError is not among the faults the [except] clause turns into a
    ValueError. *)
Fixpoint load_scan (reversed : list Message) : Result (option JsonValue) :=
  match reversed with
  | [] => Ok None
  | msg :: earlier =>
      match text msg with
      | Some t =>
          if role_eqb (role msg) tool && negb (String.eqb t "") then
            match json_loads t with
            | Faulted _ _ => Raise (ValueError ("Invalid JSON format in message: " +:+ t))
            | Returned None => Raise (External false "AttributeError")
            | Returned (Some response_json) =>
                match dict_get "message" response_json with
                | Some v => if json_truthy v then Ok (Some v) else load_scan earlier
                | None => load_scan earlier
                end
            end
          else load_scan earlier
      | None => load_scan earlier
      end
  end.

Definition load_last_function_response : M (option JsonValue) :=
  ms <- gets _messages ;;
  of_result (load_scan (reverse ms)).

(** ** Popping messages *)

(** The loop of [pop_message]; [todo] is what is left of
    [range(min(count, len(self._messages)))]. *)
Fixpoint pop_loop (todo : nat) (popped_messages : list Message) : M (list Message) :=
  match todo with
  | O => ret popped_messages
  | S todo' =>
      ms <- gets _messages ;;
      match reverse ms with
      | [] => raise IndexError
      | deleted_message :: kept =>
          modify (set_messages (reverse kept)) ;;
          store <- gets recall ;;
          match delete_message_by_id (msg_id deleted_message) store with
          | Returned store' =>
              modify (set_recall store') ;;
              pop_loop todo' (popped_messages ++ [deleted_message])
          | Faulted _ _ =>
              modify (fun a => set_messages (_messages a ++ [deleted_message]) a) ;;
              ret popped_messages
          end
      end
  end.

Definition pop_message (count : Z) : M (list Message) :=
  ms <- gets _messages ;;
  let n_messages := Py.len ms in
  let MIN_MESSAGES := 2%Z in
  if (n_messages <=? MIN_MESSAGES)%Z then
    raise (ValueError ("Agent only has " +:+ str_int n_messages
                         +:+ " messages in stack, none left to pop"))
  else if (n_messages - count <? MIN_MESSAGES)%Z then
    raise (ValueError ("Agent only has " +:+ str_int n_messages
                         +:+ " messages in stack, cannot pop more than "
                         +:+ str_int (n_messages - MIN_MESSAGES)))
  else pop_loop (Z.to_nat (Z.min count (Py.len ms))) [].

Definition no_user_message : exn := ValueError "No user message found in buffer".

(** The [while len(self._messages) > 0] loop of [pop_until_user].  Each turn
    appends the list [pop_message] returned.  [None] is returned when [fuel]
    turns were not enough. *)
Fixpoint pop_until_user_loop (fuel : nat) (popped_messages : list (list Message))
    : M (option (list (list Message))) :=
  match fuel with
  | O => ret None
  | S fuel' =>
      ms <- gets _messages ;;
      match reverse ms with
      | [] => raise no_user_message
      | last_message :: _ =>
          if role_eqb (role last_message) user then ret (Some popped_messages)
          else
            popped <- pop_message 1 ;;
            pop_until_user_loop fuel' (popped_messages ++ [popped])
      end
  end.

Definition pop_until_user (fuel : nat) : M (option (list (list Message))) :=
  ms <- gets _messages ;;
  if negb (existsb (fun m => role_eqb (role m) user) ms) then raise no_user_message
  else pop_until_user_loop fuel [].

(** ** The outer step loop *)

Section Step.

(** [self.inner_step(messages=..., first_message=False, step_count=...)] *)
Variable inner_step : list Message -> Z -> M AgentStepResponse.

(** [self.agent_state.created_by_id]; nothing in [agent.py] assigns it. *)
Variable created_by_id : option string.

(** [save_agent(self)]: [update_state] collects the ids of the buffer (all of
    them strings here) and the agent manager stores the agent state, or
    faults. *)
Definition save_agent : M unit :=
  ms <- gets _messages ;;
  of_outcome (update_agent (map msg_id ms)).

(** One turn of the [while True] loop of [step] and the turns after it;
    [None] is returned when [fuel] turns were not enough. *)
Fixpoint step_loop (fuel : nat) (chaining : bool) (max_chaining_steps : option Z)
    (next_input_message : list Message) (counter : Z) (total_usage : UsageStatistics)
    (step_count : Z) : M (option LettaUsageStatistics) :=
  match fuel with
  | O => ret None
  | S fuel' =>
      step_response <- inner_step next_input_message step_count ;;
      let step_count := (step_count + 1)%Z in
      let total_usage := usage_add total_usage (sr_usage step_response) in
      let counter := (counter + 1)%Z in
      tell step_complete ;;
      save_agent ;;
      let chain content :=
        py_assert (bool_decide (created_by_id <> None)) ;;
        m <- dict_to_message None (plain_dict user content) ;;
        step_loop fuel' chaining max_chaining_steps [m] counter total_usage step_count in
      match chain_action chaining max_chaining_steps counter
              (sr_in_context_memory_warning step_response)
              (sr_function_failed step_response)
              (sr_heartbeat_request step_response) with
      | Break => ret (Some {| lu_usage := total_usage; lu_step_count := step_count |})
      | ContinueTokenWarning =>
          now <- gets clock ;; chain (get_token_limit_warning now)
      | ContinueFunctionFailed =>
          now <- gets clock ;; chain (get_heartbeat FUNC_FAILED_HEARTBEAT_MESSAGE now)
      | ContinueHeartbeat =>
          now <- gets clock ;; chain (get_heartbeat REQ_HEARTBEAT_MESSAGE now)
      end
  end.

Definition step (fuel : nat) (messages : list Message) (chaining : bool)
    (max_chaining_steps : option Z) : M (option LettaUsageStatistics) :=
  step_loop fuel chaining max_chaining_steps messages 0 usage_zero 0.

End Step.

End FurtherMethods.

(** The messages that count for [load_last_function_response]. *)
Definition is_tool_text (m : Message) : bool :=
  role_eqb (role m) tool && truthy (text m).

(** ** More concrete environments *)

Module Demo2.

(** [Demo.env] with another model endpoint. *)
Definition env_with (endpoint : nat -> outcome ChatCompletionResponse) : Collaborators :=
  {| MESSAGE_SUMMARY_TRUNC_KEEP_N_LAST := @MESSAGE_SUMMARY_TRUNC_KEEP_N_LAST Demo.env;
     STRUCTURED_OUTPUT_MODELS := @STRUCTURED_OUTPUT_MODELS Demo.env;
     IN_CONTEXT_MEMORY_KEYWORD := @IN_CONTEXT_MEMORY_KEYWORD Demo.env;
     LLM_MAX_TOKENS := @LLM_MAX_TOKENS Demo.env;
     summary_token_target := @summary_token_target Demo.env;
     count_tokens := @count_tokens Demo.env;
     parse_json := @parse_json Demo.env;
     validate_function_response := @validate_function_response Demo.env;
     united_diff := @united_diff Demo.env;
     str_args := @str_args Demo.env;
     str_json := @str_json Demo.env;
     str_int := @str_int Demo.env;
     str_lower_strip := @str_lower_strip Demo.env;
     strftime := @strftime Demo.env;
     get_tool_call_id := @get_tool_call_id Demo.env;
     package_function_response := @package_function_response Demo.env;
     package_summarize_message := @package_summarize_message Demo.env;
     summarize_messages := @summarize_messages Demo.env;
     memory_compile := @memory_compile Demo.env;
     format_map := @format_map Demo.env;
     recall_size := @recall_size Demo.env;
     passage_size := @passage_size Demo.env;
     run_tool := @run_tool Demo.env;
     create := fun n _ _ _ => endpoint n |}.

(** An endpoint with no choices in its first two replies, then a good one. *)
Definition flaky (n : nat) : outcome ChatCompletionResponse :=
  if (n <? 2)%nat
  then Returned {| resp_id := "message-0"; choices := []; total_tokens := 0 |}
  else Returned (Demo.reply "stop").

(** An endpoint with no choices in its first two replies, then a reply that
    stopped for length. *)
Definition late_length (n : nat) : outcome ChatCompletionResponse :=
  if (n <? 2)%nat
  then Returned {| resp_id := "message-0"; choices := []; total_tokens := 0 |}
  else Returned (Demo.reply "length").

(** An endpoint with no choices in its first two replies, then a fault that
    is not a ValueError. *)
Definition late_fault (n : nat) : outcome ChatCompletionResponse :=
  if (n <? 2)%nat
  then Returned {| resp_id := "message-0"; choices := []; total_tokens := 0 |}
  else Faulted false "ConnectionError".

(** An endpoint that never gives a choice. *)
Definition silent (n : nat) : outcome ChatCompletionResponse :=
  Returned {| resp_id := "message-0"; choices := []; total_tokens := 0 |}.

Definition id_eqb (i j : MessageId) : bool :=
  match i, j with
  | GivenId s, GivenId t => String.eqb s t
  | FreshId n, FreshId m => (n =? m)%nat
  | _, _ => false
  end.

(** A store that deletes by id. *)
Definition services : Services :=
  {| delete_message_by_id :=
       fun i store => Returned (List.filter (fun m => negb (id_eqb (msg_id m) i)) store);
     json_loads := fun s => if String.eqb s "{message}" then Returned (Some [("message", JStr "sent")])
                            else if String.eqb s "{}" then Returned (Some [])
                            else if String.eqb s "[]" then Returned None
                            else Faulted true "JSONDecodeError";
     get_token_limit_warning := fun _ => "token limit warning";
     get_heartbeat := fun reason _ => reason;
     FUNC_FAILED_HEARTBEAT_MESSAGE := "function failed";
     REQ_HEARTBEAT_MESSAGE := "heartbeat requested";
     update_agent := fun _ => Returned tt |}.

(** A store whose deletes fail. *)
Definition read_only : Services :=
  {| delete_message_by_id := fun _ _ => Faulted false "OperationalError";
     json_loads := @json_loads services;
     get_token_limit_warning := @get_token_limit_warning services;
     get_heartbeat := @get_heartbeat services;
     FUNC_FAILED_HEARTBEAT_MESSAGE := @FUNC_FAILED_HEARTBEAT_MESSAGE services;
     REQ_HEARTBEAT_MESSAGE := @REQ_HEARTBEAT_MESSAGE services;
     update_agent := @update_agent services |}.

(** An inner step that always asks for a heartbeat. *)
Definition eager_step (msgs : list Message) (step_count : Z) : M AgentStepResponse :=
  ret {| sr_messages := msgs; sr_heartbeat_request := true; sr_function_failed := false;
         sr_in_context_memory_warning := false;
         sr_usage := {| completion_tokens := 1; prompt_tokens := 2; usage_total_tokens := 3 |} |}.

(** System, a tool sequence the model asked for, a bare tool result. *)
Definition tool_heavy : Agent :=
  Demo.agent "gpt-4" [Demo.send_message] []
    [ Demo.msg 0 system "system"; Demo.msg 1 assistant "calling"; Demo.msg 2 tool "result";
      Demo.msg 3 tool "result"; Demo.msg 4 tool "result"; Demo.msg 5 user "thanks" ].

End Demo2.

(** ** Vocabulary of the further statements *)

Section Vocabulary2.

Context `{Collaborators}.

(** A reply of the endpoint that the retry loop answers with another attempt:
    a fault of class ValueError, or a reply the checks reject with one. *)
Definition retryable_reply (o : outcome ChatCompletionResponse) : Prop :=
  match o with
  | Faulted b _ => b = true
  | Returned r => exists e, check_response r = Raise e /\ is_ValueError e = true
  end.

End Vocabulary2.

Section Vocabulary3.

Context `{Services}.

(** The store carries out every delete. *)
Definition accepts_deletes : Prop :=
  forall i store, exists store', delete_message_by_id i store = Returned store'.

(** The store fails every delete. *)
Definition refuses_deletes : Prop :=
  forall i store, exists b descr, delete_message_by_id i store = Faulted b descr.

(** The agent manager stores every agent state it is given. *)
Definition always_saves : Prop :=
  forall ids, update_agent ids = Returned tt.

End Vocabulary3.

(** An inner step that always returns, with a warning, a failure or a
    heartbeat request. *)
Definition always_chains (inner_step : list Message -> Z -> M AgentStepResponse) : Prop :=
  forall msgs n a, exists r a',
    inner_step msgs n a = (Ok r, a') /\
    (sr_in_context_memory_warning r || sr_function_failed r || sr_heartbeat_request r) = true.

(** * Properties *)

Local Open Scope agent_scope.

(** ** The monad *)

Lemma bind_ret {A B} (x : A) (k : A -> M B) a : bind (ret x) k a = k x a.
Proof. reflexivity. Qed.

Lemma bind_raise {A B} e (k : A -> M B) a : bind (raise e) k a = (Raise e, a).
Proof. reflexivity. Qed.

Lemma bind_gets {A B} (f : Agent -> A) (k : A -> M B) a : bind (gets f) k a = k (f a) a.
Proof. reflexivity. Qed.

Lemma bind_modify {B} (f : Agent -> Agent) (k : unit -> M B) a :
  bind (modify f) k a = k tt (f a).
Proof. reflexivity. Qed.

Lemma bind_run {A B} (c : M A) (k : A -> M B) a r a' :
  c a = (r, a') ->
  bind c k a = match r with Ok x => k x a' | Raise e => (Raise e, a') end.
Proof. intros E. unfold bind. rewrite E. by destruct r. Qed.

Lemma bind_assoc {A B C} (c : M A) (f : A -> M B) (k : B -> M C) a :
  bind (bind c f) k a = bind c (fun x => bind (f x) k) a.
Proof. unfold bind. by destruct (c a) as [[x|e] a1]. Qed.

Lemma getitem_head {A} (x : A) l : getitem (x :: l) 0 = ret x.
Proof. reflexivity. Qed.

Ltac run :=
  repeat first
    [ rewrite bind_ret | rewrite bind_raise | rewrite bind_gets
    | rewrite bind_modify | rewrite getitem_head | rewrite bind_assoc ].

(** ** Python slices *)

Lemma slice_from_nat {A} (l : list A) (n : nat) : Py.slice_from l (Z.of_nat n) = drop n l.
Proof.
  unfold Py.slice_from. destruct (Z.leb_spec 0 (Z.of_nat n)); [|lia].
  by rewrite Nat2Z.id.
Qed.

Lemma slice_from_1 {A} (l : list A) : Py.slice_from l 1 = tail l.
Proof. by destruct l. Qed.

Lemma slice_to_neg {A} (l : list A) (n : Z) :
  (0 < n)%Z -> Py.slice_to l (- n) = take (length l - Z.to_nat n) l.
Proof.
  intros Hn. unfold Py.slice_to. destruct (Z.leb_spec 0 (- n)); [lia|].
  f_equal. lia.
Qed.

Lemma slice_split {A} (l : list A) (x : A) (rest : list A) (c : nat) :
  l = x :: rest -> (1 <= c)%nat -> l = x :: Py.slice l 1 c ++ drop c l.
Proof.
  intros -> Hc. unfold Py.slice. destruct c as [|c]; [lia|].
  cbn [take drop]. by rewrite drop_0, take_drop.
Qed.

Lemma slice_nonempty_pos {A} (l : list A) (c : nat) :
  (0 < length (Py.slice l 1 c))%nat -> (1 <= c)%nat.
Proof.
  unfold Py.slice. destruct c; [|lia]. rewrite take_0, drop_nil. cbn. lia.
Qed.

Lemma sum_app (l k : list Z) : Py.sum (l ++ k) = (Py.sum l + Py.sum k)%Z.
Proof. unfold Py.sum. induction l as [|x l IH]; cbn; [done|]. rewrite IH. lia. Qed.

(** [needle in haystack] is the substring test. *)
Lemma is_prefix_spec p s : Py.is_prefix p s = true <-> exists t, s = p +:+ t.
Proof.
  revert s. induction p as [|a p IH]; intros s; cbn.
  - split; [eauto|done].
  - destruct s as [|b s]; [split; [done|intros [t Ht]; done]|].
    destruct (Ascii.eqb_spec a b) as [->|Hne].
    + rewrite IH. split; intros [t Ht]; exists t; [by rewrite Ht|by injection Ht].
    + split; [done|]. intros [t Ht]. injection Ht. congruence.
Qed.

Lemma contains_spec n h :
  Py.contains n h = true <-> exists pre post, h = pre +:+ n +:+ post.
Proof.
  induction h as [|b h IH].
  - cbn. destruct (Py.is_prefix n "") eqn:E.
    + apply is_prefix_spec in E as [t Ht]. split; [|done]. intros _. by exists "", t.
    + split; [done|]. intros (pre & post & Hh).
      destruct pre; [|done]. cbn in Hh.
      assert (Py.is_prefix n "" = true) by (apply is_prefix_spec; eauto). congruence.
  - cbn [Py.contains]. destruct (Py.is_prefix n (String b h)) eqn:E.
    + apply is_prefix_spec in E as [t Ht]. split; [|done]. intros _. by exists "", t.
    + rewrite IH. split.
      * intros (pre & post & ->). by exists (String b pre), post.
      * intros (pre & post & Hh). destruct pre as [|c pre].
        -- cbn in Hh. assert (Py.is_prefix n (String b h) = true)
             by (apply is_prefix_spec; eauto). congruence.
        -- injection Hh as _ ->. eauto.
Qed.

(** ** Compaction *)

Section Compaction.

Context `{Collaborators}.

(** The countdown of [skip_tool_results] is long enough: started at
    [len(messages) - cutoff] it satisfies the equation of the [while] loop. *)
Lemma skip_tool_results_unfold (msgs : list OpenAIDict) (cutoff : nat) :
  skip_tool_results (length msgs - cutoff) msgs cutoff =
  match msgs !! cutoff with
  | None => Raise IndexError
  | Some m =>
      if is_tool_or_function (d_role m) && (cutoff <? length msgs)%nat
      then skip_tool_results (length msgs - S cutoff) msgs (S cutoff)
      else Ok cutoff
  end.
Proof.
  destruct (msgs !! cutoff) as [m|] eqn:E.
  - pose proof (lookup_lt_Some _ _ _ E) as Hlt.
    replace (length msgs - cutoff)%nat with (S (length msgs - S cutoff)) by lia.
    cbn [skip_tool_results]. by rewrite E.
  - destruct (length msgs - cutoff)%nat; cbn; by rewrite E.
Qed.

Lemma skip_tool_results_raise r (msgs : list OpenAIDict) c e :
  skip_tool_results r msgs c = Raise e -> e = IndexError.
Proof.
  revert c. induction r as [|r IH]; intros c; cbn;
    destruct (msgs !! c); try congruence;
    destruct (is_tool_or_function _ && _); try congruence.
  apply IH.
Qed.

Lemma walk_cutoff_raise cands tcs desired i t c e :
  walk_cutoff cands tcs desired i t c = Raise e -> e = IndexError.
Proof.
  revert i t c. induction cands as [|x cands IH]; intros i t c; cbn; [done|].
  destruct (tcs !! i); [|congruence].
  destruct (_ <? _)%Z; [done|]. apply IH.
Qed.

Lemma determine_cutoff_raise p d msgs e :
  determine_cutoff p d msgs = Raise e -> e = IndexError.
Proof.
  unfold determine_cutoff.
  destruct (walk_cutoff _ _ _ _ _ _) eqn:E.
  - destruct d; [apply skip_tool_results_raise|done].
  - intros [= <-]. by eapply walk_cutoff_raise.
Qed.

Lemma dict_to_message_run id d a :
  exists m a', dict_to_message id d a = (Ok m, a') /\ role m = d_role d /\
               text m = d_content d /\ _messages a' = _messages a.
Proof. unfold dict_to_message. destruct id; eauto 10. Qed.

Lemma dict_to_message_run_tools id d a :
  exists m a', dict_to_message id d a = (Ok m, a') /\
               msg_tool_calls m = d_tool_calls d /\ tools a' = tools a.
Proof. unfold dict_to_message. destruct id; eauto 10. Qed.

Lemma trim_run a m0 rest (c : nat) :
  _messages a = m0 :: rest ->
  _trim_messages (Z.of_nat c) a = (Ok tt, set_messages (m0 :: drop c (m0 :: rest)) a).
Proof.
  intros E. unfold _trim_messages. run. rewrite E. run.
  by rewrite slice_from_nat.
Qed.

Lemma prepend_run a m0 rest added :
  _messages a = m0 :: rest ->
  exists a', _prepend_to_messages added a = (Ok tt, a') /\
             _messages a' = m0 :: added ++ rest.
Proof.
  intros E. unfold _prepend_to_messages, create_many_messages. run.
  cbn [set_recall _messages]. rewrite E. run. eauto.
Qed.

Lemma default_context_window_run a :
  exists a', default_context_window a = (Ok tt, a') /\ _messages a' = _messages a
             /\ messages a' = messages a.
Proof.
  unfold default_context_window. run. destruct (context_window a); run; eauto.
Qed.

Lemma not_enough_run {B} msg n (k : unit -> M B) a :
  bind (not_enough msg n) k a =
  (Raise (ContextWindowExceededError msg n (Py.len (messages a))
            MESSAGE_SUMMARY_TRUNC_KEEP_N_LAST), a).
Proof. reflexivity. Qed.

(** Every run of the compaction from a buffer that starts with a system
    message ends in one of the five ways of [compaction_outcome]. *)
Lemma summarize_outcome p d a :
  system_first a ->
  compaction_outcome p d a (eval (summarize_messages_inplace p d) a)
                           (exec (summarize_messages_inplace p d) a).
Proof.
  unfold system_first, eval, exec. intros Hinv.
  destruct (_messages a) as [|m0 rest] eqn:Hms; [done|].
  injection Hinv as Hrole.
  unfold summarize_messages_inplace. run.
  rewrite (bind_run (getitem (messages a) 0) _ a (Ok (to_openai_dict m0)) a)
    by (unfold messages; by rewrite Hms).
  cbn [d_role to_openai_dict]. rewrite Hrole. cbn [role_eqb py_assert]. run.
  destruct (candidates_of p (messages a)) as [|c0 cands] eqn:Hc.
  { cbn [length Nat.eqb]. rewrite not_enough_run. by constructor. }
  cbn [length Nat.eqb]. run.
  destruct (determine_cutoff p d (messages a)) as [c|e] eqn:Hd; cbn [of_result]; run.
  2:{ cbn. apply co_cutoff_fault; [by rewrite Hc|done]. }
  rewrite Hms.
  destruct (Nat.leb_spec (length (Py.slice (m0 :: rest) 1 c)) 1) as [Hle|Hgt].
  { rewrite not_enough_run. cbn. eapply co_small_window; rewrite ?Hc, ?Hms; eauto. }
  run.
  destruct (default_context_window_run a) as (a1 & Hrun & Hms1 & Hmsgs1).
  rewrite (bind_run _ _ _ _ _ Hrun). run.
  destruct (summarize_messages _ _) as [summary|b descr]; cbn [of_outcome]; run.
  2:{ cbn. eapply co_summarizer_fault; rewrite ?Hc, ?Hms; eauto. congruence. }
  rewrite Hms in Hms1.
  rewrite (bind_run _ _ _ _ _ (trim_run a1 m0 rest c Hms1)).
  set (s1 := set_messages _ a1).
  destruct (dict_to_message_run None
              (plain_dict user
                 (package_summarize_message summary (Py.len (Py.slice (m0 :: rest) 1 c))
                    (messages_total a1 - Py.len (Py.slice_from (messages a) (Z.of_nat c)))
                    (messages_total a1))) s1)
    as (m & s2 & Hmk & Hrm & _ & Hms2).
  rewrite (bind_run _ _ _ _ _ Hmk).
  destruct (prepend_run s2 m0 (drop c (m0 :: rest)) [m]) as (s3 & Hpre & Hms3);
    [by rewrite Hms2|].
  rewrite (bind_run _ _ _ _ _ Hpre). cbn.
  eapply co_compacted with (m0 := m0) (summary := m); rewrite ?Hc, ?Hms; eauto.
Qed.

End Compaction.

Section Cutoff.

Context `{Collaborators}.

(** The walk indexes [token_counts] within its bounds: it never faults. *)
Lemma walk_cutoff_returns cands tcs desired i t c :
  (i + length cands <= length tcs)%nat ->
  exists k, walk_cutoff cands tcs desired i t c = Ok k.
Proof.
  revert i t c. induction cands as [|x cands IH]; intros i t c Hlen; cbn; [eauto|].
  cbn in Hlen. destruct (lookup_lt_is_Some_2 tcs i) as [v ->]; [lia|].
  destruct (_ <? _)%Z; [eauto|]. apply IH. lia.
Qed.

Lemma candidates_of_map {A B} (f : A -> B) p (l : list A) :
  candidates_of p (map f l) = map f (candidates_of p l).
Proof.
  unfold candidates_of, Py.slice_from, Py.slice_to. cbn [Z.leb Z.compare Z.to_nat].
  rewrite !length_drop, !length_map.
  destruct p; [|by rewrite List.skipn_map].
  destruct (_ <=? _)%Z; by rewrite List.skipn_map, List.firstn_map.
Qed.

(** Without the shift past tool results the cutoff is always found. *)
Lemma determine_cutoff_without_tool_shift p msgs :
  exists c, determine_cutoff p false msgs = Ok c.
Proof.
  unfold determine_cutoff. rewrite candidates_of_map.
  destruct (walk_cutoff_returns (candidates_of p msgs)
              (map count_tokens (candidates_of p msgs))
              (summary_token_target (Py.sum (Py.slice_from (map count_tokens msgs) 1)))
              0 0%Z 0) as [k ->]; [by rewrite length_map|].
  eauto.
Qed.

(** The shift past tool results faults exactly on a tail of tool results. *)
Lemma skip_tool_results_tail n (msgs : list OpenAIDict) c :
  n = (length msgs - c)%nat ->
  Forall (fun m => is_tool_or_function (d_role m) = true) (drop c msgs) ->
  skip_tool_results n msgs c = Raise IndexError.
Proof.
  revert c. induction n as [|n IH]; intros c Hn Hall.
  - cbn [skip_tool_results]. destruct (msgs !! c) as [m|] eqn:E; [|done].
    apply lookup_lt_Some in E. lia.
  - cbn [skip_tool_results]. destruct (msgs !! c) as [m|] eqn:E; [|done].
    pose proof (lookup_lt_Some _ _ _ E) as Hlt.
    rewrite (drop_S _ _ _ E) in Hall. inversion Hall as [|? ? Hm Hrest]; subst.
    rewrite Hm. destruct (Nat.ltb_spec c (length msgs)); [|lia]. cbn [andb].
    apply IH; [lia|done].
Qed.

(** When it returns, the new cutoff is the first message from the old one on
    that is not a tool result. *)
Lemma skip_tool_results_stops n (msgs : list OpenAIDict) c k :
  n = (length msgs - c)%nat ->
  skip_tool_results n msgs c = Ok k ->
  (c <= k)%nat /\
  (exists m, msgs !! k = Some m /\ is_tool_or_function (d_role m) = false) /\
  (forall j m, (c <= j < k)%nat -> msgs !! j = Some m ->
               is_tool_or_function (d_role m) = true).
Proof.
  revert c. induction n as [|n IH]; intros c Hn; cbn [skip_tool_results];
    destruct (msgs !! c) as [m|] eqn:E; try done;
    pose proof (lookup_lt_Some _ _ _ E) as Hlt; [lia|].
  destruct (Nat.ltb_spec c (length msgs)); [|lia].
  destruct (is_tool_or_function (d_role m)) eqn:Hm; cbn [andb].
  - intros Hk. destruct (IH (S c) ltac:(lia) Hk) as (Hle & Hstop & Hbetween).
    split; [lia|]. split; [done|].
    intros j mj Hj Hlook. destruct (decide (j = c)) as [->|Hne].
    + congruence.
    + apply (Hbetween j mj); [lia|done].
  - intros [= <-]. split; [lia|]. split; [eauto|]. intros j mj Hj. lia.
Qed.

End Cutoff.

Section CompactionClaims.

Context `{Collaborators}.

Lemma candidates_of_spec p a :
  (0 < MESSAGE_SUMMARY_TRUNC_KEEP_N_LAST)%Z ->
  candidates_of p (messages a) = candidate_set p a.
Proof.
  intros HN. unfold candidates_of, candidate_set.
  rewrite slice_from_1. destruct p; [|done]. by apply slice_to_neg.
Qed.

Lemma system_first_head a :
  system_first a -> exists m0 rest, _messages a = m0 :: rest /\ role m0 = system.
Proof.
  unfold system_first. destruct (_messages a) as [|m0 rest]; [done|].
  intros [= E]. eauto.
Qed.

Lemma append_keeps_system_first added a :
  system_first a -> system_first (exec (_append_to_messages added) a).
Proof.
  intros (m0 & rest & E & Hr)%system_first_head.
  unfold exec, _append_to_messages, create_many_messages. run.
  cbn [set_recall _messages]. rewrite E. run. cbn.
  unfold system_first. cbn. by rewrite Hr.
Qed.

Lemma prepend_keeps_system_first added a :
  system_first a -> system_first (exec (_prepend_to_messages added) a).
Proof.
  intros (m0 & rest & E & Hr)%system_first_head.
  destruct (prepend_run a m0 rest added E) as (a' & Hrun & Hms).
  unfold exec, system_first. rewrite Hrun. cbn. rewrite Hms. cbn. by rewrite Hr.
Qed.

Lemma trim_keeps_system_first num a :
  system_first a -> system_first (exec (_trim_messages num) a).
Proof.
  intros (m0 & rest & E & Hr)%system_first_head.
  unfold exec, _trim_messages. run. rewrite E. run. cbn.
  unfold system_first. cbn. by rewrite Hr.
Qed.

Lemma swap_keeps_system_first txt a :
  system_first a -> system_first (exec (_swap_system_message_in_buffer txt) a).
Proof.
  intros (m0 & rest & E & Hr)%system_first_head.
  unfold exec, _swap_system_message_in_buffer.
  unfold bind at 1. cbn [dict_to_message plain_dict d_role role role_eqb py_assert].
  run. cbn [set_next_uuid _messages]. rewrite E. run. rewrite Hr.
  cbn [role_eqb py_assert]. run. unfold create_many_messages. run.
  reflexivity.
Qed.

Lemma summarize_keeps_system_first p d a :
  system_first a -> system_first (exec (summarize_messages_inplace p d) a).
Proof.
  intros Hinv. pose proof (summarize_outcome p d a Hinv) as Ho.
  destruct (system_first_head a Hinv) as (m0 & rest & E & Hr).
  unfold system_first in *.
  inversion Ho as [ | | | ? ? ? ? ? ? ? Hsame | ? m0' ? ? ? ? ? Hhd ? Hnew ]; try congruence.
  rewrite Hnew. rewrite E in Hhd. injection Hhd as <-. cbn. by rewrite Hr.
Qed.

(** C2. The buffer invariant [buffer[0].role == system] is preserved by each
    of [_append_to_messages], [_prepend_to_messages], [_trim_messages],
    [_swap_system_message_in_buffer] and [summarize_messages_inplace],
    whether the call returns or raises. *)
Theorem buffer_invariant_preserved (a : Agent) (added : list Message) (num : Z)
    (txt : string) (p d : bool) :
  system_first a ->
  system_first (exec (_append_to_messages added) a) /\
  system_first (exec (_prepend_to_messages added) a) /\
  system_first (exec (_trim_messages num) a) /\
  system_first (exec (_swap_system_message_in_buffer txt) a) /\
  system_first (exec (summarize_messages_inplace p d) a).
Proof.
  intros Hinv. repeat split.
  - by apply append_keeps_system_first.
  - by apply prepend_keeps_system_first.
  - by apply trim_keeps_system_first.
  - by apply swap_keeps_system_first.
  - by apply summarize_keeps_system_first.
Qed.

(** After a compaction that returns, [buffer[1]] is the summary message, whose
    role is user. *)
Lemma compacted_second_message p d a :
  system_first a ->
  eval (summarize_messages_inplace p d) a = Ok tt ->
  role <$> (_messages (exec (summarize_messages_inplace p d) a) !! 1%nat) = Some user.
Proof.
  intros Hinv Hok. pose proof (summarize_outcome p d a Hinv) as Ho.
  rewrite Hok in Ho. inversion Ho as [ | | | | ? ? s ? ? ? ? ? Hs Hnew ].
  rewrite Hnew. cbn. by rewrite Hs.
Qed.

(** C6. With a system message first and N > 0 messages kept, the compaction
    raises its not-enough-messages fault exactly when the candidate set is
    empty or the window [buffer[1:cutoff]] at the adjusted cutoff has at most
    one message; when it does, the agent (its buffer included) is unchanged. *)
Theorem not_enough_messages_iff (p d : bool) (a : Agent) :
  system_first a ->
  (0 < MESSAGE_SUMMARY_TRUNC_KEEP_N_LAST)%Z ->
  (is_not_enough_messages (eval (summarize_messages_inplace p d) a) <->
     candidate_set p a = [] \/
     exists c, determine_cutoff p d (messages a) = Ok c /\
               (length (Py.slice (_messages a) 1 c) <= 1)%nat) /\
  (is_not_enough_messages (eval (summarize_messages_inplace p d) a) ->
     exec (summarize_messages_inplace p d) a = a).
Proof.
  intros Hinv HN. pose proof (summarize_outcome p d a Hinv) as Ho.
  rewrite <- (candidates_of_spec p a HN).
  revert Ho.
  generalize (eval (summarize_messages_inplace p d) a)
             (exec (summarize_messages_inplace p d) a).
  intros r a' [ ? ? ? ? Hc | e Hc Hd | c ? ? ? ? Hc Hd Hw
              | c ? ? ? Hc Hd Hw Hsame | c ? ? ? Hc Hd Hw Hhd Hs Hnew ]; cbn.
  - split; [|done]. split; [by left|done].
  - apply determine_cutoff_raise in Hd as Hix. subst e. cbn.
    split; [|done]. split; [done|]. intros [?|(c & Hc' & _)]; congruence.
  - split; [|done]. split; [|done]. intros _. right. eauto.
  - split; [|done]. split; [done|].
    intros [?|(c' & Hc' & Hw')]; [done|]. rewrite Hd in Hc'. injection Hc' as <-. lia.
  - split; [|done]. split; [done|].
    intros [?|(c' & Hc' & Hw')]; [done|]. rewrite Hd in Hc'. injection Hc' as <-. lia.
Qed.

(** C7, amended. A compaction that returns replaces the window
    [buffer[1:cutoff]], of at least two messages, by exactly one summary
    message of role user: the buffer gets shorter, and its token count changes
    by the tokens of the summary minus the tokens of the window, so it
    decreases exactly when the summary has fewer tokens than the window. *)
Theorem compaction_replaces_window (p d : bool) (a : Agent) :
  system_first a ->
  eval (summarize_messages_inplace p d) a = Ok tt ->
  let a' := exec (summarize_messages_inplace p d) a in
  exists c m0 summary,
    determine_cutoff p d (messages a) = Ok c /\
    let window := Py.slice (_messages a) 1 c in
    (2 <= length window)%nat /\
    head (_messages a) = Some m0 /\
    role summary = user /\
    _messages a' = m0 :: summary :: drop c (_messages a) /\
    (length (_messages a') < length (_messages a))%nat /\
    buffer_tokens a' =
      (buffer_tokens a - Py.sum (map count_tokens (map to_openai_dict window))
       + count_tokens (to_openai_dict summary))%Z /\
    ((buffer_tokens a' < buffer_tokens a)%Z <->
     (count_tokens (to_openai_dict summary)
      < Py.sum (map count_tokens (map to_openai_dict window)))%Z).
Proof.
  intros Hinv Hok a'. pose proof (summarize_outcome p d a Hinv) as Ho.
  fold a' in Ho. rewrite Hok in Ho.
  inversion Ho as [ | | | | c m0 s ? Hc Hd Hw Hhd Hs Hnew ].
  exists c, m0, s. cbn zeta.
  destruct (_messages a) as [|m0' rest] eqn:Hms; [done|]. injection Hhd as ->.
  assert (1 <= c)%nat as Hc1
    by (apply (slice_nonempty_pos (m0 :: rest)); lia).
  pose proof (slice_split (m0 :: rest) m0 rest c eq_refl Hc1) as Hsplit.
  assert (buffer_tokens a' =
          (buffer_tokens a
           - Py.sum (map count_tokens (map to_openai_dict (Py.slice (m0 :: rest) 1 c)))
           + count_tokens (to_openai_dict s))%Z) as Htok.
  { unfold buffer_tokens, messages. rewrite Hnew, Hms.
    rewrite Hsplit at 2. cbn [map Py.sum foldr].
    rewrite !map_app, sum_app. unfold Py.sum. lia. }
  repeat split; try done; try lia.
  rewrite Hnew. apply (f_equal length) in Hsplit.
  cbn [length] in *. rewrite length_app in Hsplit. lia.
Qed.

End CompactionClaims.

(** C7, as stated, fails: on [Demo.short_chat] the compaction returns, the
    candidate set has three messages, and the buffer goes from 50 to 105
    tokens, because the summarizer's text is longer than the two short
    messages it replaces. *)
Lemma compaction_can_add_tokens :
  eval (@summarize_messages_inplace Demo.env true true) Demo.short_chat = Ok tt /\
  length (@candidate_set Demo.env true Demo.short_chat) = 3%nat /\
  @buffer_tokens Demo.env Demo.short_chat = 50%Z /\
  @buffer_tokens Demo.env
    (exec (@summarize_messages_inplace Demo.env true true) Demo.short_chat) = 105%Z.
Proof. vm_compute. repeat split. Qed.

(** C3. On [Demo.tool_tail] (default arguments, three messages kept) the loop
    that moves the cutoff past tool results indexes [messages[6]] in a buffer
    of six messages: the call raises IndexError. *)
Theorem tool_shift_index_error :
  eval (@summarize_messages_inplace Demo.env true true) Demo.tool_tail = Raise IndexError /\
  @determine_cutoff Demo.env true true (messages Demo.tool_tail) = Raise IndexError.
Proof. vm_compute. split; reflexivity. Qed.

(** The same fault without preservation, on system, user, assistant, tool. *)
Example tool_shift_index_error_short :
  eval (@summarize_messages_inplace Demo.env false true) Demo.after_tool_call = Raise IndexError.
Proof. vm_compute. reflexivity. Qed.

(** With [disallow_tool_as_first] off, the same buffers are handled. *)
Example no_tool_shift_no_fault :
  @determine_cutoff Demo.env true false (messages Demo.tool_tail) = Ok 2%nat.
Proof. vm_compute. reflexivity. Qed.

(** ** System message rebuild *)

Section Rebuild.

Context `{Collaborators}.

Lemma rebuild_noop ut a :
  memory_in_system_message a -> rebuild_system_prompt false ut a = (Ok tt, a).
Proof.
  intros (m & c & Hhd & Htxt & Hin).
  destruct (_messages a) as [|m0 rest] eqn:Hms; [done|]. injection Hhd as ->.
  unfold rebuild_system_prompt. run.
  rewrite (bind_run (getitem (messages a) 0) _ a (Ok (to_openai_dict m)) a)
    by (unfold messages; by rewrite Hms).
  run. cbn [d_content to_openai_dict]. rewrite Htxt, Hin. reflexivity.
Qed.

(** C5. When the compiled memory already occurs in the system message and
    [force] is false, [rebuild_system_prompt] returns without changing the
    agent: no message is created, none is swapped.  Two calls in a row change
    nothing either, so the id of the system message stays the same. *)
Theorem rebuild_twice_is_noop (ut ut' : bool) (a : Agent) :
  memory_in_system_message a ->
  let twice := bind (rebuild_system_prompt false ut)
                    (fun _ => rebuild_system_prompt false ut') in
  rebuild_system_prompt false ut a = (Ok tt, a) /\
  twice a = (Ok tt, a) /\
  msg_id <$> head (_messages (exec twice a)) = msg_id <$> head (_messages a) /\
  recall (exec twice a) = recall a.
Proof.
  intros Hin twice.
  assert (twice a = (Ok tt, a)) as Htwice.
  { unfold twice. rewrite (bind_run _ _ _ _ _ (rebuild_noop ut a Hin)). by apply rebuild_noop. }
  repeat split; [by apply rebuild_noop|done|..]; unfold exec; by rewrite Htwice.
Qed.

End Rebuild.

(** ** Tool rules at construction *)

Section Construction.

Context `{Collaborators}.

Lemma init_rules_count rules :
  length (init_tool_rules (Solver.new rules)) = length (List.filter is_InitToolRule rules).
Proof.
  cbn. unfold Solver.init_rules_of.
  induction rules as [|r rules IH]; [done|].
  destruct r; cbn; by rewrite ?IH.
Qed.

(** C8. Construction stops in [check_tool_rules] with a ValueError, before
    the rest of the constructor (and so before any step), exactly when the
    model is not a structured-output model and the tool rules hold more than
    one InitToolRule; otherwise the check passes and the constructor goes on. *)
Theorem multiple_init_rules_rejected (a : Agent) (rules : list ToolRule) (rest : M unit) :
  let n_init := length (List.filter is_InitToolRule rules) in
  let a0 := set_tool_rules_solver (Solver.new rules) a in
  ((model a ∉ STRUCTURED_OUTPUT_MODELS) /\ (1 < n_init)%nat ->
     exists msg, Agent__init__ (Some rules) rest a = (Raise (ValueError msg), a0)) /\
  ((model a ∈ STRUCTURED_OUTPUT_MODELS) \/ (n_init <= 1)%nat ->
     Agent__init__ (Some rules) rest a =
       rest (set_supports_structured_output
               (bool_decide (model a ∈ STRUCTURED_OUTPUT_MODELS)) a0)).
Proof.
  intros n_init a0.
  assert (forall b, bool_decide (model a ∈ STRUCTURED_OUTPUT_MODELS) = b ->
            Agent__init__ (Some rules) rest a =
            if negb b && (1 <? n_init)%nat
            then (Raise (ValueError "Multiple initial tools are not supported for non-structured models. Please use only one initial tool rule."), a0)
            else rest (set_supports_structured_output b a0)) as Hrun.
  { intros b Hb. unfold Agent__init__, check_tool_rules. run. fold a0.
    unfold bind at 1. run.
    change (model a0) with (model a). rewrite Hb.
    change (tool_rules_solver a0) with (Solver.new rules).
    rewrite init_rules_count. fold n_init.
    destruct b; cbn [negb andb]; [by run|].
    destruct (1 <? n_init)%nat; by run. }
  split.
  - intros [Hm Hn]. rewrite (Hrun false) by (by apply bool_decide_eq_false_2).
    destruct (Nat.ltb_spec 1 n_init); [|lia]. cbn. eauto.
  - intros Hor. rewrite (Hrun _ eq_refl).
    destruct (bool_decide (model a ∈ STRUCTURED_OUTPUT_MODELS)) eqn:Hb; [done|].
    destruct Hor as [Hm|Hn]; [by apply bool_decide_eq_false_1 in Hb|].
    destruct (Nat.ltb_spec 1 n_init); [lia|]. done.
Qed.

End Construction.

(** C8 at two InitToolRule entries in a row on "gpt-4", which is not among
    the structured-output models of [Demo.env]. *)
Lemma multiple_init_rules_rejected_witness :
  exists msg,
    @Agent__init__ Demo.env (Some [InitToolRule "a"; InitToolRule "b"]) (ret tt)
      (Demo.agent "gpt-4" [] [] []) =
    (Raise (ValueError msg),
     set_tool_rules_solver (Solver.new [InitToolRule "a"; InitToolRule "b"])
       (Demo.agent "gpt-4" [] [] [])).
Proof.
  apply (@multiple_init_rules_rejected Demo.env (Demo.agent "gpt-4" [] [] [])
           [InitToolRule "a"; InitToolRule "b"] (ret tt)).
  split; [|cbn; lia].
  cbn. intros Hin. apply list_elem_of_In in Hin. cbn in Hin. intuition discriminate.
Defined.

(** ** Model call *)

Section ModelCall.

Context `{Collaborators}.

Lemma check_response_length resp c rest :
  choices resp = Some c :: rest -> finish_reason c = "length" ->
  check_response resp = Raise length_fault.
Proof. intros Hc Hf. unfold check_response. by rewrite Hc, Hf. Qed.

(** The replies the source marks as retryable are ValueErrors. *)
Lemma check_response_retryable resp :
  (choices resp = [] \/ (exists rest, choices resp = None :: rest) \/
   (exists c rest, choices resp = Some c :: rest /\
                   finish_reason_ok (finish_reason c) = false /\
                   finish_reason c <> "length")) ->
  exists e, check_response resp = Raise e /\ is_ValueError e = true.
Proof.
  unfold check_response. intros [->|[[rest ->]|(c & rest & -> & Hok & Hne)]]; eauto.
  rewrite Hok. cbn [negb].
  destruct (String.eqb_spec (finish_reason c) "length"); [done|eauto].
Qed.

Lemma attempt_call_length a msgs fs forced resp c rest :
  create (api_calls a) msgs fs forced = Returned resp ->
  choices resp = Some c :: rest -> finish_reason c = "length" ->
  attempt_call msgs fs forced a = (Raise length_fault, set_api_calls (S (api_calls a)) a).
Proof.
  intros Hcreate Hc Hf. unfold attempt_call. run.
  change (api_calls (set_api_calls _ a)) with (S (api_calls a)).
  rewrite Hcreate. cbn [of_outcome]. run.
  by rewrite (check_response_length _ _ _ Hc Hf).
Qed.

(** At any attempt of the loop, a reply that stopped for length ends the
    loop at once: one call to the endpoint, no sleep, no further attempt. *)
Lemma retry_loop_length remaining attempt limit a msgs fs forced resp c rest :
  create (api_calls a) msgs fs forced = Returned resp ->
  choices resp = Some c :: rest -> finish_reason c = "length" ->
  retry_loop (S remaining) attempt limit msgs fs forced a =
    (Raise length_fault, set_api_calls (S (api_calls a)) a).
Proof.
  intros Hcreate Hc Hf. cbn [retry_loop].
  by rewrite (attempt_call_length _ _ _ _ _ _ _ Hcreate Hc Hf).
Qed.

(** A retryable fault before the last attempt is followed by a sleep and
    another attempt; at the last attempt by the retries-exhausted fault. *)
Lemma retry_loop_retryable remaining attempt limit a msgs fs forced e a' :
  attempt_call msgs fs forced a = (Raise e, a') -> is_ValueError e = true ->
  retry_loop (S remaining) attempt limit msgs fs forced a =
    if (limit <=? attempt)%Z then (Raise retries_exhausted, a')
    else retry_loop remaining (attempt + 1) limit msgs fs forced
           (set_slept (slept a' ++ [Z.to_nat attempt]) a').
Proof.
  intros Hcall He. cbn [retry_loop]. rewrite Hcall, He.
  by destruct (limit <=? attempt)%Z.
Qed.

Lemma attempt_call_state msgs fs forced a :
  snd (attempt_call msgs fs forced a) = set_api_calls (S (api_calls a)) a.
Proof.
  unfold attempt_call. run.
  destruct (create _ _ _ _) as [resp|b d]; cbn [of_outcome]; run; [|done].
  by destruct (check_response resp).
Qed.

Lemma attempt_call_ok msgs fs forced a resp a' :
  attempt_call msgs fs forced a = (Ok resp, a') ->
  create (api_calls a) msgs fs forced = Returned resp /\
  exists c rest, choices resp = Some c :: rest /\ finish_reason_ok (finish_reason c) = true.
Proof.
  unfold attempt_call. run.
  change (api_calls (set_api_calls _ a)) with (S (api_calls a)).
  destruct (create _ _ _ _) as [r|b d]; cbn [of_outcome]; run; [|done].
  unfold check_response.
  destruct (choices r) as [|[c|] rest] eqn:Hc; cbn [of_result]; try done.
  destruct (finish_reason_ok (finish_reason c)) eqn:Hok; cbn [negb].
  - intros [= <- <-]. rewrite Hc. eauto.
  - by destruct (String.eqb _ _).
Qed.

Lemma attempt_call_retryable msgs fs forced a :
  retryable_reply (create (api_calls a) msgs fs forced) ->
  exists e, attempt_call msgs fs forced a = (Raise e, set_api_calls (S (api_calls a)) a) /\
            is_ValueError e = true.
Proof.
  unfold attempt_call, retryable_reply. run.
  change (api_calls (set_api_calls _ a)) with (S (api_calls a)).
  destruct (create _ _ _ _) as [r|b d]; cbn [of_outcome]; run.
  - intros (e & -> & He). cbn [of_result]. eauto.
  - intros ->. eauto.
Qed.

Lemma attempt_call_fault a msgs fs forced b d :
  create (api_calls a) msgs fs forced = Faulted b d ->
  attempt_call msgs fs forced a = (Raise (External b d), set_api_calls (S (api_calls a)) a).
Proof.
  intros Hcreate. unfold attempt_call. run.
  change (api_calls (set_api_calls _ a)) with (S (api_calls a)).
  rewrite Hcreate. cbn [of_outcome]. by run.
Qed.

(** After [j] retryable replies, a fault at the next attempt that is not a
    ValueError ends the loop there: [j + 1] calls were made, the loop slept
    after each of the [j] attempts before, and the fault is handed on. *)
Lemma retry_loop_stops limit msgs fs forced (j : nat) e :
  is_ValueError e = false ->
  forall remaining attempt a,
  (j < remaining)%nat -> (1 <= attempt)%Z -> (attempt + Z.of_nat j <= limit)%Z ->
  (forall i, (i < j)%nat -> retryable_reply (create (api_calls a + i) msgs fs forced)) ->
  (forall s, api_calls s = (api_calls a + j)%nat ->
             fst (attempt_call msgs fs forced s) = Raise e) ->
  retry_loop remaining attempt limit msgs fs forced a =
    (Raise e, set_slept (slept a ++ seq (Z.to_nat attempt) j)
                (set_api_calls (api_calls a + j + 1) a)).
Proof.
  intros He. induction j as [|j IH]; intros remaining attempt a Hrem Hat Hlim Hretry Hstop;
    (destruct remaining as [|r]; [lia|]); cbn [retry_loop].
  - pose proof (attempt_call_state msgs fs forced a) as Hst.
    specialize (Hstop a ltac:(lia)).
    destruct (attempt_call msgs fs forced a) as [res a1]. cbn [fst snd] in *. subst.
    rewrite He. f_equal. destruct a; unfold set_slept, set_api_calls; cbn.
    f_equal; try lia; try (by rewrite app_nil_r).
  - destruct (attempt_call_retryable msgs fs forced a) as (e0 & -> & ->).
    { specialize (Hretry 0%nat ltac:(lia)). by rewrite Nat.add_0_r in Hretry. }
    destruct (Z.leb_spec limit attempt); [lia|]. run.
    rewrite (IH r (attempt + 1)%Z); [|lia|lia|lia| |].
    + f_equal. destruct a; unfold set_slept, set_api_calls; cbn. f_equal; try lia.
      rewrite <- app_assoc. cbn [app seq]. do 2 f_equal.
      replace (Z.to_nat (attempt + 1)) with (S (Z.to_nat attempt)) by lia. done.
    + intros i Hi. cbn [api_calls set_slept set_api_calls].
      specialize (Hretry (S i) ltac:(lia)).
      by replace (S (api_calls a) + i)%nat with (api_calls a + S i)%nat by lia.
    + intros s Hs. apply Hstop. rewrite Hs. cbn [api_calls set_slept set_api_calls]. lia.
Qed.

(** C4. At whatever attempt of [_get_ai_reply] a reply comes whose first
    choice has finish reason "length" (the [j] replies before it were
    retryable and the limit allows attempt [j + 1]), the RuntimeError is
    raised at once: the endpoint was called [j + 1] times, the loop slept
    after the [j] attempts before only, and no further attempt is made.
    That fault is not a ValueError, the class the loop retries, which is
    what empty choice lists, a null first choice and the other bad finish
    reasons raise; it also differs from the fault raised when retries run
    out. *)
Theorem length_is_not_retried (a : Agent) (msgs : list Message) (limit : Z)
    (step_count : option Z) (j : nat) (resp : ChatCompletionResponse) (c : Choice)
    (rest : list (option Choice)) :
  (Z.of_nat j < limit)%Z ->
  (forall i, (i < j)%nat ->
     retryable_reply (create (api_calls a + i) msgs (allowed_functions a)
                        (force_tool_call a step_count))) ->
  create (api_calls a + j) msgs (allowed_functions a) (force_tool_call a step_count)
    = Returned resp ->
  choices resp = Some c :: rest ->
  finish_reason c = "length" ->
  _get_ai_reply msgs limit step_count a
    = (Raise length_fault,
       set_slept (slept a ++ seq 1 j) (set_api_calls (api_calls a + j + 1) a)) /\
  is_ValueError length_fault = false /\
  length_fault <> retries_exhausted /\
  (forall r, choices r = [] \/ (exists t, choices r = None :: t) \/
             (exists c' t, choices r = Some c' :: t /\
                           finish_reason_ok (finish_reason c') = false /\
                           finish_reason c' <> "length") ->
             exists e, check_response r = Raise e /\ is_ValueError e = true).
Proof.
  intros Hlimit Hretry Hcreate Hc Hf.
  split; [|repeat split; try done; apply check_response_retryable].
  unfold _get_ai_reply. run. change (id a) with a.
  apply (retry_loop_stops limit msgs _ _ j length_fault); [done|lia|lia|lia|done|].
  intros s Hs.
  rewrite (attempt_call_length s msgs _ _ resp c rest); [done|by rewrite Hs|done|done].
Qed.

End ModelCall.

(** C4 on an endpoint whose third reply stopped for length: three calls, a
    sleep after the first and the second attempt, then the RuntimeError. *)
Lemma length_is_not_retried_witness :
  @_get_ai_reply (Demo2.env_with Demo2.late_length) [] 3 None Demo.short_chat
    = (Raise length_fault, set_slept [1; 2]%nat (set_api_calls 3 Demo.short_chat)).
Proof.
  refine (proj1 (@length_is_not_retried (Demo2.env_with Demo2.late_length) Demo.short_chat
                   [] 3 None 2%nat (Demo.reply "length")
                   {| finish_reason := "length";
                      message := {| cm_role := assistant; content := Some "hello";
                                    tool_calls := None; function_call := None |} |} []
                   _ _ _ _ _)).
  - lia.
  - intros [|[|i]] Hi; [cbn; eexists; split; reflexivity..|lia].
  - reflexivity.
  - reflexivity.
  - reflexivity.
Defined.

(** A reply that stopped for length at the first attempt: one call, no
    sleep. *)
Example length_at_first_attempt :
  @_get_ai_reply Demo.env [] 3 None Demo.short_chat
    = (Raise length_fault, set_api_calls 1 Demo.short_chat).
Proof. vm_compute. reflexivity. Qed.

(** ** Tool dispatch *)

Lemma bind_ok_inv {A B} (c : M A) (k : A -> M B) a y a' :
  bind c k a = (Ok y, a') ->
  exists x a1, c a = (Ok x, a1) /\ k x a1 = (Ok y, a').
Proof.
  unfold bind. destruct (c a) as [[x|e] a1]; [eauto|done].
Qed.

Ltac inv_bind H :=
  let x := fresh "x" in
  let s := fresh "s" in
  let Hc := fresh "Hc" in
  apply bind_ok_inv in H as (x & s & Hc & H).

Lemma dict_to_message_inv id d a m a' :
  dict_to_message id d a = (Ok m, a') ->
  role m = d_role d /\ text m = d_content d /\ msg_tool_calls m = d_tool_calls d /\
  tools a' = tools a.
Proof. unfold dict_to_message. destruct id; intros [= <- <-]; done. Qed.

Section Dispatch.

Context `{Collaborators}.

Lemma find_tool_acc tls name acc :
  name ∉ map tool_name tls ->
  fold_left (fun target t => if String.eqb (tool_name t) name then Some t else target) tls acc
    = acc.
Proof.
  revert acc. induction tls as [|t tls IH]; intros acc Hnot; [done|].
  cbn [fold_left]. cbn in Hnot. apply not_elem_of_cons in Hnot as [Hne Hnot].
  destruct (String.eqb_spec (tool_name t) name); [congruence|]. by apply IH.
Qed.


Lemma tool_error_run msgs name call_id err a :
  exists m a', tool_error msgs name call_id err a = (Ok (msgs ++ [m], false, true), a') /\
               role m = tool /\ text m = Some (package_function_response false err).
Proof.
  unfold tool_error.
  destruct (dict_to_message_run None
              (tool_dict name (package_function_response false err) (Some call_id)) a)
    as (m & a1 & Hmk & Hr & Ht & _).
  rewrite (bind_run _ _ _ _ _ Hmk). unfold tell. run. eauto.
Qed.

Lemma apply_tool_rules_inv name hb_model a hb a' :
  apply_tool_rules name hb_model a = (Ok hb, a') ->
  let solver := tool_rules_solver a' in
  hb = if Solver.has_children_tools solver name then true
       else if Solver.is_terminal_tool solver name then false
       else hb_model.
Proof.
  unfold apply_tool_rules. run.
  destruct (Solver.has_children_tools _ _) eqn:Hch;
    [|destruct (Solver.is_terminal_tool _ _) eqn:Hte];
    intros [= <- <-]; cbn zeta; by rewrite Hch, ?Hte.
Qed.

(** Every way [dispatch_tool_call] returns: one tool-role message is added;
    on a failure the flags are (False, True); otherwise the heartbeat is the
    one the tool rules give, computed from the model's own request. *)
Lemma dispatch_returns msgs nn fc call_id a ms hb ff a' :
  dispatch_tool_call msgs nn fc call_id a = (Ok (ms, hb, ff), a') ->
  exists mt, ms = msgs ++ [mt] /\ role mt = tool /\
    if ff then hb = false
    else exists args,
      parse_json (fc_arguments fc) = Some args /\
      let solver := tool_rules_solver a' in
      let name := Some (fc_name fc) in
      let hb_model :=
        parse_heartbeat (dict_get "request_heartbeat" (dict_del "inner_thoughts" args)) in
      hb = if Solver.has_children_tools solver name then true
           else if Solver.is_terminal_tool solver name then false
           else hb_model.
Proof.
  unfold dispatch_tool_call. run.
  destruct (find_tool (tools a) (fc_name fc)) as [target|].
  2:{ destruct (tool_error_run msgs (fc_name fc) call_id
                  ("No function named " +:+ fc_name fc) a) as (m & a1 & -> & Hr & _).
      intros [= <- <- <- <-]. eauto. }
  destruct (parse_json (fc_arguments fc)) as [args|].
  2:{ match goal with |- tool_error ?m ?n ?i ?e ?s = _ -> _ =>
        destruct (tool_error_run m n i e s) as (mt & a1 & -> & Hr & _) end.
      intros [= <- <- <- <-]. eauto. }
  intros Hrun. do 3 inv_bind Hrun.
  match goal with Hcatch : catch _ _ = (Ok ?r, _) |- _ => destruct r as [response|e] end.
  - do 6 inv_bind Hrun. injection Hrun as <- <- <- <-.
    match goal with Hmk : dict_to_message _ _ _ = (Ok ?m, _) |- _ =>
      apply dict_to_message_inv in Hmk as (Hr & _); exists m end.
    repeat split; [done|].
    exists args. split; [done|]. by eapply apply_tool_rules_inv.
  - do 4 inv_bind Hrun. injection Hrun as <- <- <- <-.
    match goal with Hmk : dict_to_message _ _ _ = (Ok ?m, _) |- _ =>
      apply dict_to_message_inv in Hmk as (Hr & _); exists m end.
    by repeat split.
Qed.

End Dispatch.

Section HandleResponse.

Context `{Collaborators}.

(** A reply that asks for a tool call through [tool_calls] either fails one
    of the two assertions or reaches the dispatch of its first tool call, with
    an assistant message that carries that call only. *)
Lemma handle_tool_call_cases r ov rid a tc0 more :
  function_call r = None -> tool_calls r = Some (tc0 :: more) ->
  ((message_id_ok rid = false \/ (ov = false /\ tc_id tc0 = None)) /\
   exists a1, _handle_ai_response r ov rid a = (Raise AssertionError, a1))
  \/
  (message_id_ok rid = true /\
   exists m nn tc call_id a2,
     _handle_ai_response r ov rid a
       = dispatch_tool_call [m] nn (tc_function tc0) call_id a2 /\
     tools a2 = tools a /\ msg_tool_calls m = Some [tc] /\
     tc_function tc = tc_function tc0 /\
     (ov = true \/ tc_id tc0 = Some call_id)).
Proof.
  intros Hfc Htc. unfold _handle_ai_response.
  destruct (message_id_ok rid) eqn:Hrid.
  2:{ left. split; [by left|]. destruct rid as [i|]; [|done]. unfold message_id_ok in Hrid.
      rewrite Hrid. cbn [py_assert]. run. eauto. }
  assert ((match rid with Some i => py_assert (Py.is_prefix "message-" i) | None => ret tt end)
          = ret tt) as -> by (destruct rid; [unfold message_id_ok in Hrid; by rewrite Hrid|done]).
  run. unfold wants_tool_call. rewrite Hfc, Htc.
  assert (first_tool_call_only (tc0 :: more) = [tc0]) as -> by (by destruct more).
  cbn [tail].
  destruct ov.
  - right. split; [done|]. run. cbn [with_id tc_function].
    match goal with |- context [dict_to_message rid ?d] =>
      destruct (dict_to_message_run_tools rid d (set_next_uuid (S (next_uuid a)) a))
        as (m & a2 & Hmk & Hcalls & Htools) end.
    rewrite (bind_run _ _ _ _ _ Hmk).
    destruct (truthy _); unfold tell; run;
      (eexists m, _, (with_id (get_tool_call_id (next_uuid a)) tc0), _, _;
       split; [reflexivity|]; repeat split; eauto).
  - destruct (tc_id tc0) as [call_id|] eqn:Hid.
    2:{ left. split; [by right|]. run. eauto. }
    right. split; [done|]. run.
    match goal with |- context [dict_to_message rid ?d] =>
      destruct (dict_to_message_run_tools rid d a) as (m & a2 & Hmk & Hcalls & Htools) end.
    rewrite (bind_run _ _ _ _ _ Hmk).
    destruct (truthy _); unfold tell; run;
      (eexists m, _, tc0, _, _; split; [reflexivity|]; repeat split; eauto).
Qed.

End HandleResponse.

Section HandleResponseClaims.

Context `{Collaborators}.



(** C10. Of several tool calls in one reply only the first is kept: the
    whole run, result and agent afterwards, is that of the reply with the
    first tool call alone; and when it returns, the messages are the
    assistant message carrying that one call and exactly one tool-role
    message. *)
Theorem only_first_tool_call_runs (a : Agent) (r : ChatCompletionMessage) (ov : bool)
    (rid : option string) (tc0 tc1 : ToolCall) (more : list ToolCall) :
  function_call r = None ->
  tool_calls r = Some (tc0 :: tc1 :: more) ->
  _handle_ai_response r ov rid a = _handle_ai_response (with_tool_calls [tc0] r) ov rid a /\
  (forall msgs hb ff a',
     _handle_ai_response r ov rid a = (Ok (msgs, hb, ff), a') ->
     exists m_call m_tool tc,
       msgs = [m_call; m_tool] /\
       msg_tool_calls m_call = Some [tc] /\ tc_function tc = tc_function tc0 /\
       role m_tool = tool).
Proof.
  intros Hfc Htc. split.
  - unfold _handle_ai_response, wants_tool_call.
    cbn [function_call tool_calls with_tool_calls content cm_role].
    rewrite Hfc, Htc. reflexivity.
  - intros msgs hb ff a' Hrun.
    destruct (handle_tool_call_cases r ov rid a tc0 (tc1 :: more) Hfc Htc)
      as [[_ [a1 Hraise]]|(_ & m & nn & tc & call_id & a2 & Hd & _ & Hcalls & Hfun & _)];
      [congruence|].
    rewrite Hd in Hrun.
    apply dispatch_returns in Hrun as (mt & -> & Hr & _).
    exists m, mt, tc. by repeat split.
Qed.

End HandleResponseClaims.




Lemma only_first_tool_call_runs_witness :
  @_handle_ai_response Demo.env Demo.two_calls false None Demo.short_chat
  = @_handle_ai_response Demo.env
      (with_tool_calls [Demo.call "send_message" "{}"] Demo.two_calls) false None
      Demo.short_chat.
Proof.
  exact (proj1 (@only_first_tool_call_runs Demo.env Demo.short_chat Demo.two_calls false None
                  (Demo.call "send_message" "{}") (Demo.call "does_not_exist" "{}") []
                  eq_refl eq_refl)).
Defined.

(** ** The statements on concrete agents *)

Lemma buffer_invariant_preserved_witness :
  system_first (exec (_append_to_messages [Demo.msg 7 user "more"]) Demo.short_chat) /\
  system_first (exec (_prepend_to_messages [Demo.msg 7 user "more"]) Demo.short_chat) /\
  system_first (exec (_trim_messages 3) Demo.short_chat) /\
  system_first (exec (_swap_system_message_in_buffer "new system") Demo.short_chat) /\
  system_first (exec (@summarize_messages_inplace Demo.env true true) Demo.short_chat).
Proof.
  apply (@buffer_invariant_preserved Demo.env Demo.short_chat [Demo.msg 7 user "more"] 3
           "new system" true true).
  reflexivity.
Defined.

Lemma not_enough_messages_iff_witness :
  is_not_enough_messages
    (eval (@summarize_messages_inplace Demo.env true true) Demo.remembering) /\
  exec (@summarize_messages_inplace Demo.env true true) Demo.remembering = Demo.remembering.
Proof.
  destruct (@not_enough_messages_iff Demo.env true true Demo.remembering)
    as [Hiff Hsame]; [reflexivity|reflexivity|].
  assert (is_not_enough_messages
            (eval (@summarize_messages_inplace Demo.env true true) Demo.remembering)) as Hraise
    by (apply Hiff; left; reflexivity).
  split; [exact Hraise|exact (Hsame Hraise)].
Defined.

Lemma compaction_replaces_window_witness :
  (length (_messages (exec (@summarize_messages_inplace Demo.env true true) Demo.short_chat))
   < length (_messages Demo.short_chat))%nat.
Proof.
  destruct (@compaction_replaces_window Demo.env true true Demo.short_chat)
    as (c & m0 & summary & _ & _ & _ & _ & _ & Hlen & _); [reflexivity|reflexivity|].
  exact Hlen.
Defined.

Lemma rebuild_twice_is_noop_witness :
  @rebuild_system_prompt Demo.env false true Demo.remembering = (Ok tt, Demo.remembering).
Proof.
  refine (proj1 (@rebuild_twice_is_noop Demo.env true true Demo.remembering _)).
  exists (Demo.msg 0 system "You are a helpful agent. Bob likes tea"),
         "You are a helpful agent. Bob likes tea".
  repeat split; reflexivity.
Defined.

(** With stale memory the rebuild does swap: a new system message, with a new
    id, is created and stored. *)
Example rebuild_swaps_when_memory_changed :
  eval (@rebuild_system_prompt Demo.env false true) Demo.stale = Ok tt /\
  msg_id <$> head (_messages (exec (@rebuild_system_prompt Demo.env false true) Demo.stale))
    = Some (FreshId 0) /\
  length (recall (exec (@rebuild_system_prompt Demo.env false true) Demo.stale)) = 1%nat.
Proof. vm_compute. repeat split. Qed.

(** A tool call that runs, with no tool rule, returns the model's own
    heartbeat request and no failure. *)
Example plain_tool_call_runs :
  returned_heartbeat
    (eval (@_handle_ai_response Demo.env
             (with_tool_calls [Demo.call "send_message" "{hb}"] Demo.two_calls) false None)
       Demo.short_chat) = Some true /\
  returned_failure
    (eval (@_handle_ai_response Demo.env
             (with_tool_calls [Demo.call "send_message" "{hb}"] Demo.two_calls) false None)
       Demo.short_chat) = Some false.
Proof. vm_compute. split; reflexivity. Qed.

(** * Further properties *)

(** ** The retry loop *)

Section RetryLoop.

Context `{Collaborators}.

Lemma retry_loop_bounds limit msgs fs forced remaining attempt a :
  remaining = 0%nat \/ Z.of_nat remaining = (limit - attempt + 1)%Z ->
  let a' := snd (retry_loop remaining attempt limit msgs fs forced a) in
  (api_calls a <= api_calls a' <= api_calls a + remaining)%nat /\
  (length (slept a') <= length (slept a) + (remaining - 1))%nat /\
  _messages a' = _messages a /\ recall a' = recall a.
Proof.
  revert attempt a. induction remaining as [|r IH]; intros attempt a Hinv; cbn zeta.
  { cbn. repeat split; lia. }
  destruct Hinv as [|Hinv]; [done|].
  cbn [retry_loop].
  pose proof (attempt_call_state msgs fs forced a) as Hst.
  destruct (attempt_call msgs fs forced a) as [[resp|e] a1]; cbn [snd] in *; subst a1.
  - cbn. repeat split; lia.
  - destruct (is_ValueError e); [|cbn; repeat split; lia].
    destruct (Z.leb_spec limit attempt); [cbn; repeat split; lia|].
    run.
    set (s := set_slept _ _).
    destruct (IH (attempt + 1)%Z s) as (Hc & Hs & Hm & Hr); [right; lia|].
    subst s. cbn [api_calls set_slept set_api_calls slept _messages recall] in *.
    rewrite length_app in Hs. cbn [length] in Hs.
    repeat split; try lia; congruence.
Qed.

(** X1. Whatever the endpoint answers, [_get_ai_reply] calls it at most
    [empty_response_retry_limit] times (never for a limit below one), sleeps
    at most once less, and touches neither the buffer nor the store. *)
Theorem retry_calls_bounded (a : Agent) (msgs : list Message) (limit : Z)
    (step_count : option Z) :
  let a' := exec (_get_ai_reply msgs limit step_count) a in
  (api_calls a <= api_calls a' <= api_calls a + Z.to_nat limit)%nat /\
  (length (slept a') <= length (slept a) + (Z.to_nat limit - 1))%nat /\
  _messages a' = _messages a /\ recall a' = recall a.
Proof.
  unfold exec, _get_ai_reply. run. change (id a) with a.
  apply retry_loop_bounds.
  destruct (Z.to_nat limit) eqn:E; [by left|right; lia].
Qed.

Lemma retry_loop_unfold limit msgs fs forced remaining attempt a :
  retry_loop (S remaining) attempt limit msgs fs forced a =
  match attempt_call msgs fs forced a with
  | (Ok response, a') => (Ok response, a')
  | (Raise e, a') =>
      if is_ValueError e then
        if (limit <=? attempt)%Z then (Raise retries_exhausted, a')
        else retry_loop remaining (attempt + 1) limit msgs fs forced
               (set_slept (slept a' ++ [Z.to_nat attempt]) a')
      else (Raise e, a')
  end.
Proof. reflexivity. Qed.

Lemma retry_loop_exhausts limit msgs fs forced remaining attempt a :
  Z.of_nat (S remaining) = (limit - attempt + 1)%Z -> (1 <= attempt)%Z ->
  (forall n, retryable_reply (create n msgs fs forced)) ->
  let run := retry_loop (S remaining) attempt limit msgs fs forced a in
  fst run = Raise retries_exhausted /\
  api_calls (snd run) = (api_calls a + S remaining)%nat /\
  slept (snd run) = slept a ++ seq (Z.to_nat attempt) remaining.
Proof.
  revert attempt a. induction remaining as [|r IH]; intros attempt a Hinv Hat Hall; cbn zeta;
    rewrite retry_loop_unfold;
    destruct (attempt_call_retryable msgs fs forced a (Hall _)) as (e & -> & ->).
  - destruct (Z.leb_spec limit attempt); [|lia]. cbn.
    repeat split; [lia|by rewrite app_nil_r].
  - destruct (Z.leb_spec limit attempt); [lia|].
    set (s := set_slept _ _).
    destruct (IH (attempt + 1)%Z s) as (Hres & Hc & Hs); [lia|lia|done|].
    rewrite Hres, Hc, Hs. subst s.
    cbn [api_calls set_slept set_api_calls slept].
    repeat split; [lia|].
    rewrite <- app_assoc. cbn [app seq]. do 3 f_equal. lia.
Qed.

(** X2. When every reply of the endpoint is retryable, [_get_ai_reply] with a
    limit of at least one makes exactly that many calls, sleeps after each
    attempt but the last, and ends with the retries-exhausted fault. *)
Theorem retries_exhausted_after_limit (a : Agent) (msgs : list Message) (limit : Z)
    (step_count : option Z) :
  (1 <= limit)%Z ->
  (forall n, retryable_reply
               (create n msgs (allowed_functions a) (force_tool_call a step_count))) ->
  let a' := exec (_get_ai_reply msgs limit step_count) a in
  eval (_get_ai_reply msgs limit step_count) a = Raise retries_exhausted /\
  api_calls a' = (api_calls a + Z.to_nat limit)%nat /\
  slept a' = slept a ++ seq 1 (Z.to_nat limit - 1).
Proof.
  intros Hlimit Hall. unfold eval, exec, _get_ai_reply. run. change (id a) with a.
  destruct (Z.to_nat limit) as [|r] eqn:E; [lia|].
  replace (S r - 1)%nat with r by lia.
  apply (retry_loop_exhausts limit msgs _ _ r 1 a); [lia|lia|done].
Qed.

Lemma retry_loop_returns limit msgs fs forced remaining attempt a resp a' :
  retry_loop remaining attempt limit msgs fs forced a = (Ok resp, a') ->
  create (api_calls a' - 1) msgs fs forced = Returned resp /\
  (api_calls a < api_calls a')%nat /\
  exists c rest, choices resp = Some c :: rest /\ finish_reason_ok (finish_reason c) = true.
Proof.
  revert attempt a. induction remaining as [|r IH]; intros attempt a; [done|].
  cbn [retry_loop].
  pose proof (attempt_call_state msgs fs forced a) as Hst.
  destruct (attempt_call msgs fs forced a) as [[resp1|e] a1] eqn:Hcall; cbn [snd] in Hst.
  - intros [= <- <-]. apply attempt_call_ok in Hcall as (Hcreate & Hshape).
    subst a1. cbn [api_calls set_api_calls].
    replace (S (api_calls a) - 1)%nat with (api_calls a) by lia.
    repeat split; [done|lia|done].
  - destruct (is_ValueError e); [|done].
    destruct (limit <=? attempt)%Z; [done|]. run.
    intros Hrun. apply IH in Hrun as (Hcreate & Hlt & Hshape).
    subst a1. cbn [api_calls set_slept set_api_calls] in Hlt.
    repeat split; [done|lia|done].
Qed.

(** X3. A reply that [_get_ai_reply] returns is the one the endpoint gave at
    the last call made, and its first choice is there with finish reason
    stop, function_call or tool_calls. *)
Theorem returned_reply_is_checked (a : Agent) (msgs : list Message) (limit : Z)
    (step_count : option Z) (resp : ChatCompletionResponse) :
  eval (_get_ai_reply msgs limit step_count) a = Ok resp ->
  let a' := exec (_get_ai_reply msgs limit step_count) a in
  create (api_calls a' - 1) msgs (allowed_functions a) (force_tool_call a step_count)
    = Returned resp /\
  (api_calls a < api_calls a')%nat /\
  exists c rest, choices resp = Some c :: rest /\
                 finish_reason c ∈ ["stop"; "function_call"; "tool_calls"].
Proof.
  unfold eval, exec, _get_ai_reply. run. change (id a) with a.
  destruct (retry_loop _ _ _ _ _ _ a) as [r a'] eqn:Hrun. cbn [fst snd].
  intros ->. apply retry_loop_returns in Hrun as (Hcreate & Hlt & c & rest & Hc & Hok).
  repeat split; [done|done|]. exists c, rest. split; [done|].
  unfold finish_reason_ok in Hok. by apply bool_decide_eq_true_1 in Hok.
Qed.

(** X4. At whatever attempt the endpoint faults with something that is not
    a ValueError (the [j] replies before it were retryable and the limit
    allows attempt [j + 1]), [_get_ai_reply] hands that fault on at once:
    [j + 1] calls were made, the loop slept after the [j] attempts before
    only, and no further attempt is made. *)
Theorem endpoint_fault_propagates (a : Agent) (msgs : list Message) (limit : Z)
    (step_count : option Z) (j : nat) (descr : string) :
  (Z.of_nat j < limit)%Z ->
  (forall i, (i < j)%nat ->
     retryable_reply (create (api_calls a + i) msgs (allowed_functions a)
                        (force_tool_call a step_count))) ->
  create (api_calls a + j) msgs (allowed_functions a) (force_tool_call a step_count)
    = Faulted false descr ->
  _get_ai_reply msgs limit step_count a
    = (Raise (External false descr),
       set_slept (slept a ++ seq 1 j) (set_api_calls (api_calls a + j + 1) a)).
Proof.
  intros Hlimit Hretry Hcreate. unfold _get_ai_reply. run. change (id a) with a.
  apply (retry_loop_stops limit msgs _ _ j (External false descr)); [done|lia|lia|lia|done|].
  intros s Hs.
  rewrite (attempt_call_fault s msgs _ _ false descr); [done|by rewrite Hs].
Qed.

End RetryLoop.

Lemma retries_exhausted_after_limit_witness :
  eval (@_get_ai_reply (Demo2.env_with Demo2.silent) [] 3 None) Demo.short_chat
    = Raise retries_exhausted /\
  api_calls (exec (@_get_ai_reply (Demo2.env_with Demo2.silent) [] 3 None) Demo.short_chat)
    = 3%nat /\
  slept (exec (@_get_ai_reply (Demo2.env_with Demo2.silent) [] 3 None) Demo.short_chat)
    = [1; 2]%nat.
Proof.
  apply (@retries_exhausted_after_limit (Demo2.env_with Demo2.silent) Demo.short_chat [] 3 None).
  - lia.
  - intros n. cbn. eexists. split; reflexivity.
Defined.

Lemma returned_reply_is_checked_witness :
  exists c rest, choices (Demo.reply "stop") = Some c :: rest /\
                 finish_reason c ∈ ["stop"; "function_call"; "tool_calls"].
Proof.
  refine (proj2 (proj2 (@returned_reply_is_checked (Demo2.env_with Demo2.flaky)
                          Demo.short_chat [] 3 None (Demo.reply "stop") _))).
  reflexivity.
Defined.

Lemma endpoint_fault_propagates_witness :
  @_get_ai_reply (Demo2.env_with Demo2.late_fault) [] 3 None Demo.short_chat
  = (Raise (External false "ConnectionError"),
     set_slept [1; 2]%nat (set_api_calls 3 Demo.short_chat)).
Proof.
  refine (@endpoint_fault_propagates (Demo2.env_with Demo2.late_fault) Demo.short_chat
            [] 3 None 2%nat "ConnectionError" _ _ _).
  - lia.
  - intros [|[|i]] Hi; [cbn; eexists; split; reflexivity..|lia].
  - reflexivity.
Defined.

(** ** Every return of [_handle_ai_response] *)

Lemma dict_to_message_dict id d a m a' :
  dict_to_message id d a = (Ok m, a') -> to_openai_dict m = d.
Proof. unfold dict_to_message. destruct id; intros [= <- <-]; by destruct d. Qed.

Lemma dict_to_message_total id d a :
  exists m a', dict_to_message id d a = (Ok m, a') /\ to_openai_dict m = d.
Proof.
  destruct (dict_to_message id d a) as [[m|e] a'] eqn:E.
  - exists m, a'. split; [done|]. by eapply dict_to_message_dict.
  - unfold dict_to_message in E. by destruct id.
Qed.

Section ResponseShape.

Context `{Collaborators}.

Lemma no_rule_for_no_tool s :
  Solver.has_children_tools s None = false /\ Solver.is_terminal_tool s None = false.
Proof.
  unfold Solver.has_children_tools, Solver.is_terminal_tool. split.
  - induction (child_tool_rules s); [done|]. cbn in *. done.
  - induction (terminal_tool_rules s); [done|]. cbn in *. done.
Qed.

Lemma tool_error_inv msgs name call_id err a res a' :
  tool_error msgs name call_id err a = (Ok res, a') ->
  exists m, res = (msgs ++ [m], false, true) /\
            to_openai_dict m = tool_dict name (package_function_response false err) (Some call_id).
Proof.
  unfold tool_error. intros Hrun. do 2 inv_bind Hrun. injection Hrun as <- <-.
  match goal with Hmk : dict_to_message _ _ _ = (Ok ?m, _) |- _ =>
    apply dict_to_message_dict in Hmk; eauto end.
Qed.

(** The tool message that [dispatch_tool_call] adds answers the call it was
    given: same id, named after the function. *)
Lemma dispatch_returns_ids msgs nn fc call_id a ms hb ff a' :
  dispatch_tool_call msgs nn fc call_id a = (Ok (ms, hb, ff), a') ->
  exists mt, ms = msgs ++ [mt] /\ role mt = tool /\
             msg_tool_call_id mt = Some call_id /\ msg_name mt = Some (fc_name fc) /\
             (ff = true -> hb = false).
Proof.
  unfold dispatch_tool_call. run.
  destruct (find_tool (tools a) (fc_name fc)) as [target|].
  2:{ intros (m & [= -> -> ->] & Hd)%tool_error_inv. exists m.
      apply (f_equal d_role) in Hd as Hr. apply (f_equal d_tool_call_id) in Hd as Hi.
      apply (f_equal d_name) in Hd as Hn. by repeat split. }
  destruct (parse_json (fc_arguments fc)) as [args|].
  2:{ intros (m & [= -> -> ->] & Hd)%tool_error_inv. exists m.
      apply (f_equal d_role) in Hd as Hr. apply (f_equal d_tool_call_id) in Hd as Hi.
      apply (f_equal d_name) in Hd as Hn. by repeat split. }
  intros Hrun. do 3 inv_bind Hrun.
  match goal with Hcatch : catch _ _ = (Ok ?r, _) |- _ => destruct r as [response|e] end.
  - do 6 inv_bind Hrun. injection Hrun as <- <- <- <-.
    match goal with Hmk : dict_to_message _ _ _ = (Ok ?m, _) |- _ =>
      apply dict_to_message_dict in Hmk as Hd; exists m end.
    apply (f_equal d_role) in Hd as Hr. apply (f_equal d_tool_call_id) in Hd as Hi.
    apply (f_equal d_name) in Hd as Hn. by repeat split.
  - do 4 inv_bind Hrun. injection Hrun as <- <- <- <-.
    match goal with Hmk : dict_to_message _ _ _ = (Ok ?m, _) |- _ =>
      apply dict_to_message_dict in Hmk as Hd; exists m end.
    apply (f_equal d_role) in Hd as Hr. apply (f_equal d_tool_call_id) in Hd as Hi.
    apply (f_equal d_name) in Hd as Hn. by repeat split.
Qed.

(** A reply with tool calls that gets past the assertions is dispatched with
    the id that its assistant message shows. *)
Lemma handle_tool_call_ids r ov rid a tc0 more res a' :
  function_call r = None -> tool_calls r = Some (tc0 :: more) ->
  _handle_ai_response r ov rid a = (Ok res, a') ->
  message_id_ok rid = true /\
  exists m nn tc call_id a2,
    dispatch_tool_call [m] nn (tc_function tc0) call_id a2 = (Ok res, a') /\
    msg_tool_calls m = Some [tc] /\ tc_id tc = Some call_id /\
    tc_function tc = tc_function tc0 /\ role m = cm_role r /\ text m = content r.
Proof.
  intros Hfc Htc. unfold _handle_ai_response.
  destruct (message_id_ok rid) eqn:Hrid.
  2:{ destruct rid as [i|]; [|done]. unfold message_id_ok in Hrid.
      rewrite Hrid. cbn [py_assert]. by run. }
  assert ((match rid with Some i => py_assert (Py.is_prefix "message-" i) | None => ret tt end)
          = ret tt) as -> by (destruct rid; [unfold message_id_ok in Hrid; by rewrite Hrid|done]).
  run. unfold wants_tool_call. rewrite Hfc, Htc.
  assert (first_tool_call_only (tc0 :: more) = [tc0]) as -> by (by destruct more).
  cbn [tail].
  destruct ov.
  - run. cbn [with_id tc_function].
    match goal with |- context [dict_to_message rid ?d] =>
      destruct (dict_to_message_total rid d (set_next_uuid (S (next_uuid a)) a))
        as (m & a2 & Hmk & Hd) end.
    rewrite (bind_run _ _ _ _ _ Hmk).
    apply (f_equal d_role) in Hd as Hr. apply (f_equal d_content) in Hd as Ht.
    apply (f_equal d_tool_calls) in Hd as Hcalls. cbn in Hr, Ht, Hcalls.
    destruct (truthy _); unfold tell; run; intros Hrun; (split; [done|]);
      (eexists m, _, (with_id (get_tool_call_id (next_uuid a)) tc0), _, _;
       split; [exact Hrun|]; by repeat split).
  - destruct (tc_id tc0) as [call_id|] eqn:Hid; run; [|done].
    match goal with |- context [dict_to_message rid ?d] =>
      destruct (dict_to_message_total rid d a) as (m & a2 & Hmk & Hd) end.
    rewrite (bind_run _ _ _ _ _ Hmk).
    apply (f_equal d_role) in Hd as Hr. apply (f_equal d_content) in Hd as Ht.
    apply (f_equal d_tool_calls) in Hd as Hcalls. cbn in Hr, Ht, Hcalls.
    destruct (truthy _); unfold tell; run; intros Hrun; (split; [done|]);
      (eexists m, _, tc0, _, _; split; [exact Hrun|]; by repeat split).
Qed.

(** X5. Whenever [_handle_ai_response] returns: the reply had no legacy
    [function_call]; a reply without tool calls gave its assistant message
    alone, no heartbeat and no failure; a reply with tool calls gave the
    assistant message, carrying one tool call, and one tool-role message that
    bears the id of that call and the name of the function called, and a
    failure never comes with a heartbeat request. *)
Theorem response_shape (r : ChatCompletionMessage) (ov : bool) (rid : option string)
    (a : Agent) (msgs : list Message) (hb ff : bool) (a' : Agent) :
  _handle_ai_response r ov rid a = (Ok (msgs, hb, ff), a') ->
  function_call r = None /\
  ((wants_tool_call r = false /\
    exists m, msgs = [m] /\ role m = cm_role r /\ text m = content r /\
              hb = false /\ ff = false)
   \/
   (exists tc0 more m mt tc call_id,
      tool_calls r = Some (tc0 :: more) /\ msgs = [m; mt] /\
      role m = cm_role r /\ msg_tool_calls m = Some [tc] /\
      tc_function tc = tc_function tc0 /\ tc_id tc = Some call_id /\
      role mt = tool /\ msg_tool_call_id mt = Some call_id /\
      msg_name mt = Some (fc_name (tc_function tc0)) /\
      (ff = true -> hb = false))).
Proof.
  intros Hrun.
  destruct (function_call r) as [fc|] eqn:Hfc.
  { exfalso. revert Hrun. unfold _handle_ai_response, wants_tool_call. rewrite Hfc.
    destruct rid as [i|]; [destruct (Py.is_prefix "message-" i)|]; cbn [py_assert]; by run. }
  split; [done|].
  destruct (tool_calls r) as [[|tc0 more]|] eqn:Htc.
  - left. revert Hrun. unfold _handle_ai_response, wants_tool_call. rewrite Hfc, Htc.
    split; [done|]. do 5 inv_bind Hrun. injection Hrun as <- <- <- <-.
    match goal with Hmk : dict_to_message _ _ _ = (Ok ?m, _) |- _ =>
      apply dict_to_message_dict in Hmk as Hd; exists m end.
    apply (f_equal d_role) in Hd as Hr. apply (f_equal d_content) in Hd as Ht.
    match goal with Hrules : apply_tool_rules _ _ _ = _ |- _ =>
      apply apply_tool_rules_inv in Hrules as Hhb end.
    cbn zeta in Hhb.
    match type of Hhb with context [Solver.has_children_tools ?s None] =>
      destruct (no_rule_for_no_tool s) as [Hch Hte] end.
    rewrite Hch, Hte in Hhb. by repeat split.
  - right.
    destruct (handle_tool_call_ids r ov rid a tc0 more _ _ Hfc Htc Hrun)
      as (_ & m & nn & tc & call_id & a2 & Hd & Hcalls & Hid & Hfun & Hr & _).
    apply dispatch_returns_ids in Hd as (mt & -> & Hrt & Hti & Htn & Hff).
    exists tc0, more, m, mt, tc, call_id. by repeat split.
  - left. revert Hrun. unfold _handle_ai_response, wants_tool_call. rewrite Hfc, Htc.
    split; [done|]. do 5 inv_bind Hrun. injection Hrun as <- <- <- <-.
    match goal with Hmk : dict_to_message _ _ _ = (Ok ?m, _) |- _ =>
      apply dict_to_message_dict in Hmk as Hd; exists m end.
    apply (f_equal d_role) in Hd as Hr. apply (f_equal d_content) in Hd as Ht.
    match goal with Hrules : apply_tool_rules _ _ _ = _ |- _ =>
      apply apply_tool_rules_inv in Hrules as Hhb end.
    cbn zeta in Hhb.
    match type of Hhb with context [Solver.has_children_tools ?s None] =>
      destruct (no_rule_for_no_tool s) as [Hch Hte] end.
    rewrite Hch, Hte in Hhb. by repeat split.
Qed.

End ResponseShape.

Lemma response_shape_witness :
  exists msgs hb ff a',
    @_handle_ai_response Demo.env Demo.two_calls false None Demo.short_chat
      = (Ok (msgs, hb, ff), a') /\
    function_call Demo.two_calls = None.
Proof.
  destruct (@_handle_ai_response Demo.env Demo.two_calls false None Demo.short_chat)
    as [[[[msgs hb] ff]|e] a'] eqn:Hrun.
  - exists msgs, hb, ff, a'. split; [reflexivity|].
    exact (proj1 (@response_shape Demo.env Demo.two_calls false None Demo.short_chat
                    msgs hb ff a' Hrun)).
  - vm_compute in Hrun. discriminate.
Defined.

(** ** The cutoff of the compaction *)

Section CutoffProperties.

Context `{Collaborators}.

Lemma sum_take_S (tcs : list Z) i t :
  tcs !! i = Some t -> Py.sum (take (S i) tcs) = (Py.sum (take i tcs) + t)%Z.
Proof.
  intros E. rewrite (take_S_r _ _ _ E), sum_app. cbn. lia.
Qed.

(** The walk from index [i] with running total [t]. *)
Lemma walk_cutoff_from cands (tcs : list Z) desired i t c k :
  (i + length cands)%nat = length tcs ->
  (c <= i)%nat ->
  t = Py.sum (take i tcs) ->
  (forall j, (j < i)%nat -> (Py.sum (take (S j) tcs) <= desired)%Z) ->
  walk_cutoff cands tcs desired i t c = Ok k ->
  (forall j, (j < k)%nat -> (Py.sum (take (S j) tcs) <= desired)%Z) /\
  ((cands = [] /\ k = c) \/
   ((i <= k < i + length cands)%nat /\
    ((desired < Py.sum (take (S k) tcs))%Z \/ S k = (i + length cands)%nat))).
Proof.
  revert i t c. induction cands as [|x cands IH]; intros i t c Hlen Hci Ht Hbefore; cbn.
  - intros [= <-]. split; [|by left]. intros j Hj. apply Hbefore. lia.
  - cbn in Hlen. destruct (lookup_lt_is_Some_2 tcs i) as [v Hv]; [lia|]. rewrite Hv.
    pose proof (sum_take_S tcs i v Hv) as Hsum.
    destruct (Z.ltb_spec desired (t + v)) as [Hover|Hunder].
    + intros [= <-]. split; [done|]. right. split; [lia|]. left. lia.
    + intros Hwalk.
      apply IH in Hwalk as [Hpre Hcase]; [| lia | lia | lia |].
      * split; [done|]. right. destruct Hcase as [[-> ->]|[Hrange Hstop]].
        -- split; [cbn; lia|]. right. cbn. lia.
        -- split; [lia|]. destruct Hstop; [by left|right; lia].
      * intros j Hj. destruct (decide (j = i)) as [->|]; [lia|]. apply Hbefore. lia.
Qed.

(** X6. The budget walk returns the first index at which the running token
    total exceeds the target, or the last index when it never does: every
    shorter prefix of the token counts is within the target. *)
Theorem walk_stops_at_first_crossing (cands : list OpenAIDict) (tcs : list Z)
    (desired : Z) (k : nat) :
  length tcs = length cands -> cands <> [] ->
  walk_cutoff cands tcs desired 0 0 0 = Ok k ->
  (k < length cands)%nat /\
  (forall j, (j < k)%nat -> (Py.sum (take (S j) tcs) <= desired)%Z) /\
  ((desired < Py.sum (take (S k) tcs))%Z \/ S k = length cands).
Proof.
  intros Hlen Hne Hwalk.
  apply (walk_cutoff_from cands tcs desired 0 0%Z 0) in Hwalk as [Hpre Hcase];
    [|lia|lia|done|lia].
  destruct Hcase as [[? _]|[Hrange Hstop]]; [done|].
  repeat split; [lia|done|]. destruct Hstop; [by left|right; lia].
Qed.

Lemma shift_past_user_bounds (msgs : list OpenAIDict) c :
  (c <= shift_past_user msgs c <= S c)%nat /\
  ((c < length msgs)%nat -> (shift_past_user msgs c < length msgs)%nat).
Proof.
  unfold shift_past_user. destruct (msgs !! c) as [m|] eqn:E; [|lia].
  destruct (role_eqb _ _); [|split; [lia|done]].
  destruct (msgs !! S c) as [m'|] eqn:E'; [|split; [lia|done]].
  apply lookup_lt_Some in E'. lia.
Qed.

(** Without the shift past tool results, the cutoff leaves the last N
    messages alone. *)
Lemma cutoff_keeps_last_N (msgs : list OpenAIDict) c :
  (0 < MESSAGE_SUMMARY_TRUNC_KEEP_N_LAST)%Z ->
  candidates_of true msgs <> [] ->
  determine_cutoff true false msgs = Ok c ->
  (1 <= c <= length msgs - Z.to_nat MESSAGE_SUMMARY_TRUNC_KEEP_N_LAST)%nat.
Proof.
  intros HN Hne. unfold determine_cutoff. rewrite candidates_of_map.
  destruct (walk_cutoff _ _ _ _ _ _) as [k|e] eqn:Hwalk; [|done].
  intros [= <-].
  apply walk_cutoff_from in Hwalk as [_ [[Hnil _]|[Hrange _]]];
    [done| |by rewrite length_map|lia|done|lia].
  assert (length (candidates_of true msgs)
          = (length msgs - 1 - Z.to_nat MESSAGE_SUMMARY_TRUNC_KEEP_N_LAST)%nat) as Hlen.
  { unfold candidates_of. rewrite slice_from_1, slice_to_neg by done.
    rewrite length_take. destruct msgs; cbn; lia. }
  pose proof (shift_past_user_bounds msgs (S k)). lia.
Qed.

(** X7. With the shift past tool results switched off, a compaction that
    preserves the last N > 0 messages and returns leaves exactly those N
    messages at the end of the buffer. *)
Theorem compaction_keeps_last_N (a : Agent) :
  system_first a ->
  (0 < MESSAGE_SUMMARY_TRUNC_KEEP_N_LAST)%Z ->
  eval (summarize_messages_inplace true false) a = Ok tt ->
  let n := Z.to_nat MESSAGE_SUMMARY_TRUNC_KEEP_N_LAST in
  let a' := exec (summarize_messages_inplace true false) a in
  (n <= length (_messages a') - 2)%nat /\
  drop (length (_messages a') - n) (_messages a') =
  drop (length (_messages a) - n) (_messages a).
Proof.
  intros Hinv HN Hok n a'. pose proof (summarize_outcome true false a Hinv) as Ho.
  fold a' in Ho. rewrite Hok in Ho.
  inversion Ho as [ | | | | c m0 s ? Hc Hd Hw Hhd Hs Hnew ].
  apply cutoff_keeps_last_N in Hd as Hrange; [|done|done].
  unfold messages in Hrange. rewrite length_map in Hrange. fold n in Hrange.
  rewrite Hnew. cbn [length]. rewrite length_drop.
  split; [lia|].
  replace (S (S (length (_messages a) - c)) - n)%nat
    with (S (S (length (_messages a) - c - n))) by lia.
  cbn [drop]. rewrite drop_drop. f_equal. lia.
Qed.

(** X8. With the shift past tool results on, a compaction that returns leaves
    right after the summary a message that is neither a tool nor a function
    result. *)
Theorem message_after_summary_not_tool (p : bool) (a : Agent) :
  system_first a ->
  eval (summarize_messages_inplace p true) a = Ok tt ->
  exists m, _messages (exec (summarize_messages_inplace p true) a) !! 2%nat = Some m /\
            is_tool_or_function (role m) = false.
Proof.
  intros Hinv Hok. pose proof (summarize_outcome p true a Hinv) as Ho.
  rewrite Hok in Ho.
  inversion Ho as [ | | | | c m0 s ? Hc Hd Hw Hhd Hs Hnew ].
  unfold determine_cutoff in Hd.
  destruct (walk_cutoff _ _ _ _ _ _) as [k|e]; [|done].
  apply skip_tool_results_stops in Hd as (_ & (dm & Hlook & Hrole) & _); [|done].
  unfold messages in Hlook. rewrite list_lookup_fmap in Hlook.
  destruct (_messages a !! c) as [m|] eqn:Hm; [|done].
  injection Hlook as <-. exists m. split; [|done].
  rewrite Hnew.
  change ((m0 :: s :: drop c (_messages a)) !! 2%nat) with (drop c (_messages a) !! 0%nat).
  by rewrite lookup_drop, Nat.add_0_r.
Qed.

End CutoffProperties.

(** On [Demo2.tool_heavy] the shift past tool results moves the cutoff into
    the last three messages: only one of them is left after the summary. *)
Example tool_shift_eats_preserved_tail :
  @determine_cutoff Demo.env true true (messages Demo2.tool_heavy) = Ok 5%nat /\
  length (_messages (exec (@summarize_messages_inplace Demo.env true true) Demo2.tool_heavy))
    = 3%nat.
Proof. vm_compute. split; reflexivity. Qed.

Lemma walk_stops_at_first_crossing_witness :
  (1 < length [Demo.content_length; Demo.content_length; Demo.content_length])%nat.
Proof.
  exact (proj1 (@walk_stops_at_first_crossing
                  [plain_dict user "a long opening message"; plain_dict assistant "ok";
                   plain_dict user "bye"]
                  [22; 2; 3]%Z 23 1 eq_refl ltac:(discriminate) eq_refl)).
Defined.

Lemma compaction_keeps_last_N_witness :
  drop (length (_messages (exec (@summarize_messages_inplace Demo.env true false)
                             Demo.short_chat)) - 3)
       (_messages (exec (@summarize_messages_inplace Demo.env true false) Demo.short_chat))
  = drop (length (_messages Demo.short_chat) - 3) (_messages Demo.short_chat).
Proof.
  refine (proj2 (@compaction_keeps_last_N Demo.env Demo.short_chat _ _ _));
    reflexivity.
Defined.

Lemma message_after_summary_not_tool_witness :
  exists m,
    _messages (exec (@summarize_messages_inplace Demo.env true true) Demo.short_chat) !! 2%nat
      = Some m /\
    is_tool_or_function (role m) = false.
Proof.
  apply (@message_after_summary_not_tool Demo.env true Demo.short_chat); reflexivity.
Defined.

(** ** What a rebuild of the system message changes *)

Section RebuildEffect.

Context `{Collaborators}.

Lemma compile_system_message_reads sys mem t a :
  exists r, compile_system_message sys mem t a = (r, a).
Proof.
  unfold compile_system_message, compile_memory_metadata_block. run.
  destruct (format_map _ _); eauto.
Qed.

Lemma swap_run txt a m0 rest :
  _messages a = m0 :: rest ->
  exists a' r, _swap_system_message_in_buffer txt a = (r, a') /\
    ((r = Raise AssertionError /\ _messages a' = m0 :: rest /\ recall a' = recall a /\
      messages_total a' = messages_total a) \/
     (exists m, r = Ok tt /\ _messages a' = m :: rest /\ role m = system /\
                text m = Some txt /\ recall a' = recall a ++ [m] /\
                messages_total a' = messages_total a)).
Proof.
  intros E. unfold _swap_system_message_in_buffer.
  unfold bind at 1. cbn [dict_to_message plain_dict d_role role role_eqb py_assert].
  run. cbn [set_next_uuid _messages]. rewrite E. run.
  destruct (role_eqb (role m0) system); cbn [py_assert]; run.
  - unfold create_many_messages. run. do 2 eexists. split; [reflexivity|].
    right. eexists. by repeat split.
  - do 2 eexists. split; [reflexivity|]. left. by repeat split.
Qed.

(** X9. Whatever its arguments and however it ends, [rebuild_system_prompt]
    changes at most the first message of the buffer: either buffer and store
    are as before, or the first message has been replaced by a new message of
    role system that has also been stored.  The message counter is never
    changed. *)
Theorem rebuild_changes_first_message_only (force ut : bool) (a : Agent) :
  let a' := exec (rebuild_system_prompt force ut) a in
  messages_total a' = messages_total a /\
  ((_messages a' = _messages a /\ recall a' = recall a) \/
   (exists m, _messages a' = m :: tail (_messages a) /\ role m = system /\
              recall a' = recall a ++ [m] /\
              eval (rebuild_system_prompt force ut) a = Ok tt)).
Proof.
  unfold exec, eval, rebuild_system_prompt. run. unfold messages.
  destruct (_messages a) as [|m0 rest] eqn:Hms.
  { change (getitem (map to_openai_dict []) 0) with (@raise OpenAIDict IndexError).
    run. cbn. split; [done|]. left. by rewrite ?Hms. }
  cbn [map]. run. cbn [d_content to_openai_dict].
  destruct (text m0) as [curr|]; [|cbn; split; [done|]; left; by rewrite ?Hms].
  destruct (Py.contains _ curr && negb force); [cbn; split; [done|]; left; by rewrite ?Hms|].
  assert (forall k : Z -> M unit,
            bind (if ut then gets clock
                  else bind (gets _messages)
                         (fun ms => bind (getitem ms 0) (fun m => ret (created_at m)))) k a
            = k (if ut then clock a else created_at m0) a) as ->.
  { intros k. destruct ut; run; [done|]. rewrite Hms. by run. }
  run.
  destruct (compile_system_message_reads (system_prompt a) (memory a)
              (if ut then clock a else created_at m0) a) as [[new|e] Hcompile];
    rewrite (bind_run _ _ _ _ _ Hcompile);
    [|cbn; split; [done|]; left; by rewrite ?Hms].
  destruct (0 <? String.length (united_diff curr new))%nat;
    [|cbn; split; [done|]; left; by rewrite ?Hms].
  destruct (swap_run new a m0 rest Hms)
    as (a1 & r & Hswap & Hcases).
  rewrite (bind_run _ _ _ _ _ Hswap).
  destruct Hcases as [(-> & Hm & Hr & Ht)|(m & -> & Hm & Hrole & Htext & Hr & Ht)].
  - cbn. split; [done|]. left. by rewrite Hm, Hr.
  - run. unfold messages. rewrite Hm. cbn [map]. run.
    cbn [d_content to_openai_dict]. rewrite Htext.
    rewrite bool_decide_eq_true_2 by done. cbn.
    split; [done|]. right. exists m. by rewrite Hm.
Qed.

End RebuildEffect.

(** ** Popping messages *)

Lemma reverse_cons_inv {A} (ms : list A) d kept :
  reverse ms = d :: kept -> ms = reverse kept ++ [d].
Proof.
  intros E. rewrite <- (reverse_involutive ms), E. by rewrite reverse_cons.
Qed.

Lemma set_messages_same a ms : ms = _messages a -> set_messages ms a = a.
Proof. intros ->. by destruct a. Qed.

Lemma role_eqb_eq r1 r2 : role_eqb r1 r2 = true <-> r1 = r2.
Proof. destruct r1, r2; cbn; split; congruence. Qed.

Section Popping.

Context `{Collaborators} `{Services}.

Lemma pop_loop_conserves todo popped a :
  (todo <= length (_messages a))%nat ->
  exists popped' a',
    pop_loop todo popped a = (Ok (popped ++ popped'), a') /\
    _messages a' ++ reverse popped' = _messages a /\
    (length popped' <= todo)%nat.
Proof.
  revert popped a. induction todo as [|todo IH]; intros popped a Hlen.
  { exists [], a. cbn. by rewrite !app_nil_r. }
  cbn [pop_loop]. run.
  destruct (reverse (_messages a)) as [|d kept] eqn:Hrev.
  { apply (f_equal length) in Hrev. rewrite length_reverse in Hrev. cbn in Hrev. lia. }
  apply reverse_cons_inv in Hrev as Hms. run.
  destruct (delete_message_by_id _ _) as [store'|b descr]; run.
  - match goal with |- context [pop_loop todo ?p ?s] =>
      destruct (IH p s) as (popped' & a' & Hrun & Hcons & Hle) end.
    { cbn. rewrite Hms, length_app in Hlen. cbn in Hlen. lia. }
    exists (d :: popped'), a'. rewrite Hrun.
    cbn [set_recall set_messages _messages] in Hcons.
    repeat split.
    + by rewrite <- app_assoc.
    + by rewrite reverse_cons, app_assoc, Hcons.
    + cbn [length]. lia.
  - exists [], (set_messages (reverse kept ++ [d]) (set_messages (reverse kept) a)).
    cbn [set_messages _messages reverse rev_append length].
    rewrite !app_nil_r. repeat split; [done|lia].
Qed.

(** X10. [pop_message] raises a ValueError, and changes nothing, when the
    buffer has at most two messages or the pop would leave fewer than two.
    Otherwise it returns, and whatever the store did, the buffer followed by
    the popped messages in reverse is the buffer as it was: at most [count]
    messages are gone, at least two are left, the first is untouched. *)
Theorem pop_message_conserves (count : Z) (a : Agent) :
  let n := Py.len (_messages a) in
  ((n <= 2)%Z \/ (n - count < 2)%Z ->
     exists msg, pop_message count a = (Raise (ValueError msg), a)) /\
  ((2 < n)%Z /\ (2 <= n - count)%Z ->
     exists popped a',
       pop_message count a = (Ok popped, a') /\
       _messages a' ++ reverse popped = _messages a /\
       (length popped <= Z.to_nat count)%nat /\
       (2 <= length (_messages a'))%nat /\
       head (_messages a') = head (_messages a)).
Proof.
  intros n. unfold pop_message. run. fold n. split.
  - intros Hbad. destruct (Z.leb_spec n 2); [run; eauto|].
    destruct (Z.ltb_spec (n - count) 2); [run; eauto|lia].
  - intros [Hn Hc]. destruct (Z.leb_spec n 2); [lia|].
    destruct (Z.ltb_spec (n - count) 2); [lia|].
    unfold n, Py.len in *.
    destruct (pop_loop_conserves (Z.to_nat (Z.min count (Z.of_nat (length (_messages a))))) [] a)
      as (popped & a' & Hrun & Hcons & Hle); [lia|].
    exists popped, a'. cbn in Hrun. rewrite Hrun.
    assert (length (_messages a') + length popped = length (_messages a))%nat as Hlen
      by (rewrite <- Hcons, length_app, length_reverse; done).
    repeat split; [done|lia|lia|].
    rewrite <- Hcons. destruct (_messages a'); [cbn in Hlen; lia|done].
Qed.

Lemma pop_loop_accepted todo popped a :
  accepts_deletes ->
  (todo <= length (_messages a))%nat ->
  exists a',
    pop_loop todo popped a
      = (Ok (popped ++ reverse (drop (length (_messages a) - todo) (_messages a))), a') /\
    _messages a' = take (length (_messages a) - todo) (_messages a).
Proof.
  intros Hacc. revert popped a. induction todo as [|todo IH]; intros popped a Hlen.
  { exists a. cbn. rewrite Nat.sub_0_r, drop_all, take_ge by lia. by rewrite app_nil_r. }
  cbn [pop_loop]. run.
  destruct (reverse (_messages a)) as [|d kept] eqn:Hrev.
  { apply (f_equal length) in Hrev. rewrite length_reverse in Hrev. cbn in Hrev. lia. }
  apply reverse_cons_inv in Hrev as Hms. run.
  destruct (Hacc (msg_id d) (recall (set_messages (reverse kept) a))) as [store' ->]. run.
  match goal with |- context [pop_loop todo ?p ?s] =>
    destruct (IH p s) as (a' & Hrun & Hkept) end.
  { cbn. rewrite Hms, length_app in Hlen. cbn in Hlen. lia. }
  exists a'. rewrite Hrun. cbn [set_recall set_messages _messages] in *.
  rewrite Hkept, Hms, length_app. cbn [length].
  replace (length (reverse kept) + 1 - S todo)%nat with (length (reverse kept) - todo)%nat by lia.
  rewrite drop_app_le, take_app_le by lia.
  split; [|done]. by rewrite reverse_app, <- app_assoc.
Qed.

(** X11. When the store carries out every delete, [pop_message] with a
    non-negative [count] that leaves two messages returns the last [count]
    messages, last one first, and leaves the buffer without them. *)
Theorem pop_message_returns_last (count : Z) (a : Agent) :
  accepts_deletes ->
  (0 <= count)%Z ->
  (2 < Py.len (_messages a))%Z ->
  (2 <= Py.len (_messages a) - count)%Z ->
  let keep := (length (_messages a) - Z.to_nat count)%nat in
  exists a',
    pop_message count a = (Ok (reverse (drop keep (_messages a))), a') /\
    _messages a' = take keep (_messages a).
Proof.
  intros Hacc Hcount Hn Hleft keep. unfold pop_message. run.
  destruct (Z.leb_spec (Py.len (_messages a)) 2); [lia|].
  destruct (Z.ltb_spec (Py.len (_messages a) - count) 2); [lia|].
  unfold Py.len in *.
  replace (Z.to_nat (Z.min count (Z.of_nat (length (_messages a))))) with (Z.to_nat count) by lia.
  destruct (pop_loop_accepted (Z.to_nat count) [] a Hacc) as (a' & Hrun & Hkept); [lia|].
  exists a'. by rewrite Hrun.
Qed.

Lemma pop_one_accepted a ms x :
  accepts_deletes -> _messages a = ms ++ [x] -> (2 <= length ms)%nat ->
  exists a', pop_message 1 a = (Ok [x], a') /\ _messages a' = ms.
Proof.
  intros Hacc Hms Hlen. unfold pop_message. run.
  assert (length (_messages a) = S (length ms)) as Hl
    by (rewrite Hms, length_app; cbn; lia).
  unfold Py.len. rewrite Hl.
  destruct (Z.leb_spec (Z.of_nat (S (length ms))) 2); [lia|].
  destruct (Z.ltb_spec (Z.of_nat (S (length ms)) - 1) 2); [lia|].
  replace (Z.to_nat (Z.min 1 (Z.of_nat (S (length ms))))) with 1%nat by lia.
  destruct (pop_loop_accepted 1 [] a Hacc) as (a' & Hrun & Hkept); [lia|].
  exists a'. rewrite Hrun, Hkept, Hl, Hms.
  replace (S (length ms) - 1)%nat with (length ms) by lia.
  rewrite drop_app_length, take_app_length. done.
Qed.

Lemma pop_until_user_loop_accepted pre u post :
  accepts_deletes -> role u = user -> (1 <= length pre)%nat ->
  Forall (fun m => role m <> user) post ->
  forall fuel acc a,
    _messages a = pre ++ [u] ++ post -> (length post < fuel)%nat ->
    exists a',
      pop_until_user_loop fuel acc a
        = (Ok (Some (acc ++ map (fun m => [m]) (reverse post))), a') /\
      _messages a' = pre ++ [u].
Proof.
  intros Hacc Hu Hpre. induction post as [|x post IH] using rev_ind;
    intros Hpost fuel acc a Hms Hfuel; (destruct fuel as [|fuel]; [lia|]);
    cbn [pop_until_user_loop]; run; rewrite Hms.
  - rewrite app_nil_r, reverse_app. cbn [reverse rev_append app].
    rewrite Hu. cbn [role_eqb]. run. exists a. by rewrite app_nil_r, Hms, !app_nil_r.
  - rewrite !app_assoc, reverse_app. cbn [reverse rev_append app].
    apply Forall_app in Hpost as [Hpost Hx]. inversion Hx as [|? ? Hxu _]; subst.
    destruct (role_eqb (role x) user) eqn:Hr; [by apply role_eqb_eq in Hr|].
    destruct (pop_one_accepted a ((pre ++ [u]) ++ post) x Hacc) as (a1 & Hpop & Hms1).
    { by rewrite Hms, !app_assoc. }
    { rewrite !length_app. cbn. lia. }
    rewrite (bind_run _ _ _ _ _ Hpop).
    rewrite length_app in Hfuel. cbn in Hfuel.
    destruct (IH Hpost fuel (acc ++ [[x]]) a1) as (a' & Hrun & Hkept);
      [by rewrite Hms1, <- app_assoc|lia|].
    exists a'. rewrite Hrun. split; [|done].
    rewrite reverse_app. cbn. by rewrite <- app_assoc.
Qed.

(** X12. When the store carries out every delete and the last user message
    is not the first message of the buffer, [pop_until_user] removes the
    messages after it and returns them last one first, each in a list of its
    own; the buffer then ends with that user message.  As many turns as there
    are messages to remove, plus one, are enough. *)
Theorem pop_until_user_stops_at_user (a : Agent) (pre post : list Message) (u : Message)
    (fuel : nat) :
  accepts_deletes ->
  _messages a = pre ++ [u] ++ post ->
  role u = user ->
  Forall (fun m => role m <> user) post ->
  (1 <= length pre)%nat ->
  (length post < fuel)%nat ->
  exists a',
    pop_until_user fuel a = (Ok (Some (map (fun m => [m]) (reverse post))), a') /\
    _messages a' = pre ++ [u].
Proof.
  intros Hacc Hms Hu Hpost Hpre Hfuel. unfold pop_until_user. run.
  assert (existsb (fun m => role_eqb (role m) user) (_messages a) = true) as ->.
  { rewrite Hms. apply existsb_exists. exists u. split; [|by apply role_eqb_eq].
    apply in_or_app. right. by left. }
  cbn [negb].
  destruct (pop_until_user_loop_accepted pre u post Hacc Hu Hpre Hpost fuel [] a Hms Hfuel)
    as (a' & Hrun & Hkept).
  exists a'. by rewrite Hrun.
Qed.

Lemma pop_one_refused a :
  refuses_deletes -> (3 <= length (_messages a))%nat ->
  pop_message 1 a = (Ok [], a).
Proof.
  intros Href Hlen. unfold pop_message. run. unfold Py.len.
  destruct (Z.leb_spec (Z.of_nat (length (_messages a))) 2); [lia|].
  destruct (Z.ltb_spec (Z.of_nat (length (_messages a)) - 1) 2); [lia|].
  replace (Z.to_nat (Z.min 1 (Z.of_nat (length (_messages a))))) with 1%nat by lia.
  cbn [pop_loop]. run.
  destruct (reverse (_messages a)) as [|d kept] eqn:Hrev.
  { apply (f_equal length) in Hrev. rewrite length_reverse in Hrev. cbn in Hrev. lia. }
  apply reverse_cons_inv in Hrev as Hms. run.
  destruct (Href (msg_id d) (recall (set_messages (reverse kept) a))) as (b & descr & ->).
  run. f_equal. cbn [set_messages _messages].
  rewrite <- Hms. destruct a. cbn in *. done.
Qed.

(** X13. When the store fails every delete and the last message of a buffer
    of three or more messages, one of them from the user, is not a user
    message, [pop_until_user] makes no progress: after any number of turns of
    its loop the agent is as it was and the loop has not ended. *)
Theorem pop_until_user_spins (a : Agent) (last_message : Message) (kept : list Message)
    (fuel : nat) :
  refuses_deletes ->
  reverse (_messages a) = last_message :: kept ->
  role last_message <> user ->
  existsb (fun m => role_eqb (role m) user) (_messages a) = true ->
  (3 <= length (_messages a))%nat ->
  pop_until_user fuel a = (Ok None, a).
Proof.
  intros Href Hrev Hlast Huser Hlen. unfold pop_until_user. run.
  rewrite Huser. cbn [negb].
  generalize (@nil (list Message)). induction fuel as [|fuel IH]; intros acc; [done|].
  cbn [pop_until_user_loop]. run. rewrite Hrev.
  destruct (role_eqb (role last_message) user) eqn:Hr; [by apply role_eqb_eq in Hr|].
  rewrite (bind_run _ _ _ _ _ (pop_one_refused a Href Hlen)). apply IH.
Qed.

End Popping.

Lemma services_accept_deletes : @accepts_deletes Demo2.services.
Proof. intros i store. eexists. reflexivity. Qed.

Lemma pop_message_returns_last_witness :
  exists a',
    @pop_message Demo.env Demo2.services 2 Demo.short_chat
      = (Ok [Demo.msg 6 user "and the end"; Demo.msg 5 assistant "and more here"], a') /\
    length (_messages a') = 5%nat.
Proof.
  destruct (@pop_message_returns_last Demo.env Demo2.services 2 Demo.short_chat
              services_accept_deletes ltac:(lia) ltac:(reflexivity)
              ltac:(vm_compute; discriminate))
    as (a' & Hrun & Hkept).
  exists a'. split; [exact Hrun|]. rewrite Hkept. reflexivity.
Defined.

Lemma pop_until_user_stops_at_user_witness :
  exists a',
    @pop_until_user Demo.env Demo2.services 3 Demo.after_tool_call
      = (Ok (Some [[Demo.msg 3 tool "result"]; [Demo.msg 2 assistant "calling"]]), a') /\
    _messages a' = [Demo.msg 0 system "system"; Demo.msg 1 user "hi"].
Proof.
  apply (@pop_until_user_stops_at_user Demo.env Demo2.services Demo.after_tool_call
           [Demo.msg 0 system "system"]
           [Demo.msg 2 assistant "calling"; Demo.msg 3 tool "result"]
           (Demo.msg 1 user "hi") 3 services_accept_deletes).
  - reflexivity.
  - reflexivity.
  - repeat constructor; discriminate.
  - cbn. lia.
  - cbn. lia.
Defined.

Lemma pop_until_user_spins_witness :
  @pop_until_user Demo.env Demo2.read_only 50 Demo.after_tool_call
    = (Ok None, Demo.after_tool_call).
Proof.
  apply (@pop_until_user_spins Demo.env Demo2.read_only Demo.after_tool_call
           (Demo.msg 3 tool "result")
           [Demo.msg 2 assistant "calling"; Demo.msg 1 user "hi"; Demo.msg 0 system "system"]).
  - intros i store. do 2 eexists. reflexivity.
  - reflexivity.
  - discriminate.
  - reflexivity.
  - cbn. lia.
Defined.

(** ** The last function response *)

Lemma fst_of_result {A} (r : Result A) a : fst (of_result r a) = r.
Proof. by destruct r. Qed.

Lemma filter_reverse {A} (f : A -> bool) (l : list A) :
  List.filter f (reverse l) = reverse (List.filter f l).
Proof.
  induction l as [|x l IH]; [done|].
  rewrite reverse_cons, List.filter_app, IH. cbn [List.filter].
  destruct (f x); [by rewrite reverse_cons|by rewrite app_nil_r].
Qed.

Section LastFunctionResponse.

Context `{Collaborators} `{Services}.

Lemma load_scan_filter l : load_scan l = load_scan (List.filter is_tool_text l).
Proof.
  induction l as [|m l IH]; [done|].
  cbn [load_scan List.filter]. unfold is_tool_text at 1, truthy.
  destruct (text m) as [t|] eqn:Ht; [|by rewrite andb_false_r].
  destruct (role_eqb (role m) tool && negb (String.eqb t "")) eqn:Hrel; [|done].
  cbn [load_scan]. rewrite Ht, Hrel, IH. done.
Qed.

Lemma load_scan_skip l1 l2 :
  Forall (fun m => is_tool_text m = false) l1 -> load_scan (l1 ++ l2) = load_scan l2.
Proof.
  induction 1 as [|m l1 Hm _ IH]; [done|].
  cbn [app load_scan]. unfold is_tool_text, truthy in Hm.
  destruct (text m) as [t|]; [|done]. by rewrite Hm.
Qed.

(** X14. [load_last_function_response] only looks at the tool-role messages
    that have text: it gives the same result on the buffer and on the buffer
    with all other messages removed. *)
Theorem last_function_response_ignores_others (a : Agent) :
  eval load_last_function_response a =
  eval load_last_function_response
    (set_messages (List.filter is_tool_text (_messages a)) a).
Proof.
  unfold eval, load_last_function_response. run. cbn [set_messages _messages].
  rewrite !fst_of_result, load_scan_filter, filter_reverse. done.
Qed.

(** X15. The most recent tool-role message with text decides what
    [load_last_function_response] gives: a ValueError when its text is not
    JSON, even if older messages are fine; its "message" entry when it is a
    dict with a truthy one; otherwise the answer for the messages before
    it. *)
Theorem last_function_response_most_recent (a : Agent) (pre post : list Message)
    (m : Message) (t : string) :
  _messages a = pre ++ [m] ++ post ->
  Forall (fun x => is_tool_text x = false) post ->
  role m = tool -> text m = Some t -> t <> "" ->
  eval load_last_function_response a =
  match json_loads t with
  | Faulted _ _ => Raise (ValueError ("Invalid JSON format in message: " +:+ t))
  | Returned None => Raise (External false "AttributeError")
  | Returned (Some response_json) =>
      match dict_get "message" response_json with
      | Some v => if json_truthy v then Ok (Some v)
                  else eval load_last_function_response (set_messages pre a)
      | None => eval load_last_function_response (set_messages pre a)
      end
  end.
Proof.
  intros Hms Hpost Hrole Htext Hne.
  unfold eval, load_last_function_response. run. cbn [set_messages _messages].
  rewrite !fst_of_result, Hms, !reverse_app. cbn [reverse rev_append app].
  rewrite <- app_assoc, load_scan_skip by (by apply Forall_reverse).
  cbn [app load_scan]. rewrite Htext, Hrole. cbn [role_eqb andb].
  destruct (String.eqb_spec t ""); [done|]. cbn [negb].
  destruct (json_loads t) as [[d|]|b descr]; [|done|done].
  destruct (dict_get "message" d) as [v|]; [|done].
  by destruct (json_truthy v).
Qed.

End LastFunctionResponse.

Lemma last_function_response_most_recent_witness :
  eval (@load_last_function_response Demo2.services)
    (set_messages [Demo.msg 0 system "system"; Demo.msg 1 tool "not json";
                   Demo.msg 2 tool "{message}"; Demo.msg 3 user "hi"] Demo.short_chat)
  = Ok (Some (JStr "sent")).
Proof.
  exact (@last_function_response_most_recent Demo2.services
           (set_messages [Demo.msg 0 system "system"; Demo.msg 1 tool "not json";
                          Demo.msg 2 tool "{message}"; Demo.msg 3 user "hi"] Demo.short_chat)
           [Demo.msg 0 system "system"; Demo.msg 1 tool "not json"]
           [Demo.msg 3 user "hi"] (Demo.msg 2 tool "{message}") "{message}"
           eq_refl ltac:(repeat constructor) eq_refl eq_refl ltac:(discriminate)).
Defined.

(** An older tool message that is not JSON is a fault once it is the most
    recent one looked at. *)
Example last_function_response_bad_json :
  eval (@load_last_function_response Demo2.services)
    (set_messages [Demo.msg 0 system "system"; Demo.msg 1 tool "{message}";
                   Demo.msg 2 tool "not json"] Demo.short_chat)
  = Raise (ValueError "Invalid JSON format in message: not json").
Proof. vm_compute. reflexivity. Qed.

(** ** The outer step loop *)

Section StepLoop.

Context `{Collaborators} `{Services}.

Variable inner_step : list Message -> Z -> M AgentStepResponse.
Variable created_by_id : option string.

Lemma chain_run fuel chaining mx counter total sc content a :
  created_by_id <> None ->
  exists m a1,
    dict_to_message None (plain_dict user content) a = (Ok m, a1) /\
    bind (py_assert (bool_decide (created_by_id <> None)))
      (fun _ => bind (dict_to_message None (plain_dict user content))
         (fun m => step_loop inner_step created_by_id fuel chaining mx [m] counter total sc)) a
    = step_loop inner_step created_by_id fuel chaining mx [m] counter total sc a1.
Proof.
  intros Hid.
  destruct (dict_to_message_total None (plain_dict user content) a) as (m & a1 & Hmk & _).
  exists m, a1. split; [done|].
  rewrite bool_decide_true by done. unfold py_assert. run.
  by rewrite (bind_run _ _ _ _ _ Hmk).
Qed.

Lemma save_agent_run a :
  save_agent a = (Ok tt, a) \/ exists e, save_agent a = (Raise e, a).
Proof.
  unfold save_agent. run.
  destruct (update_agent (map msg_id (_messages a))) as [[]|b d]; cbn; eauto.
Qed.

Lemma step_loop_capped chaining (m : Z) fuel next counter total a :
  (Z.to_nat (m - counter) < fuel)%nat ->
  match fst (step_loop inner_step created_by_id fuel chaining (Some m) next counter total
               counter a) with
  | Ok None => False
  | Ok (Some s) => (counter + 1 <= lu_step_count s <= Z.max (counter + 1) (m + 1))%Z
  | Raise _ => True
  end.
Proof.
  revert next counter total a. induction fuel as [|fuel IH]; intros next counter total a Hfuel;
    [lia|].
  cbn [step_loop]. unfold bind at 1.
  destruct (inner_step next counter a) as [[r|e] a1]; [|done].
  unfold tell. run.
  match goal with |- context [bind save_agent _ ?s] =>
    unfold bind at 1; destruct (save_agent_run s) as [->|[e ->]]; [|done] end.
  unfold chain_action.
  destruct (negb chaining); [cbn; lia|].
  destruct (Z.ltb_spec m (counter + 1)); [cbn; lia|].
  assert (Z.to_nat (m - (counter + 1)) < fuel)%nat as Hnext by lia.
  destruct created_by_id as [uid|] eqn:Huid.
  - destruct (sr_in_context_memory_warning r);
      [|destruct (sr_function_failed r); [|destruct (sr_heartbeat_request r); [|cbn; lia]]];
      run;
      match goal with
      |- context [bind (py_assert _)
                    (fun _ => bind (dict_to_message None (plain_dict user ?c)) _) ?s] =>
        destruct (chain_run fuel chaining (Some m) (counter + 1)%Z
                    (usage_add total (sr_usage r)) (counter + 1)%Z c s)
          as (msg & a2 & _ & Hrun); [by rewrite Huid|]
      end;
      rewrite Huid in Hrun; rewrite Hrun;
      specialize (IH [msg] (counter + 1)%Z (usage_add total (sr_usage r)) a2 Hnext);
      destruct (fst (step_loop _ _ _ _ _ _ _ _ _ _)) as [[s|]|e]; try done; lia.
  - destruct (sr_in_context_memory_warning r);
      [|destruct (sr_function_failed r); [|destruct (sr_heartbeat_request r); [|cbn; lia]]];
      run; done.
Qed.

(** X16. With [max_chaining_steps] set to [m], [step] runs at most [m + 1]
    inner steps (one when [m] is negative), whatever the inner steps report:
    that many turns of the loop are enough for it to end, and the step count
    it returns is between 1 and that bound. *)
Theorem step_is_capped (fuel : nat) (messages : list Message) (chaining : bool) (m : Z)
    (a : Agent) :
  (Z.to_nat m < fuel)%nat ->
  match eval (step inner_step created_by_id fuel messages chaining (Some m)) a with
  | Ok None => False
  | Ok (Some s) => (1 <= lu_step_count s <= Z.max 1 (m + 1))%Z
  | Raise _ => True
  end.
Proof.
  intros Hfuel. unfold eval, step.
  apply (step_loop_capped chaining m fuel messages 0 usage_zero a).
  by rewrite Z.sub_0_r.
Qed.

Lemma step_loop_unbounded fuel next counter total sc a :
  always_chains inner_step -> created_by_id <> None -> always_saves ->
  fst (step_loop inner_step created_by_id fuel true None next counter total sc a) = Ok None.
Proof.
  intros Hchain Hid Hsave. revert next counter total sc a.
  induction fuel as [|fuel IH]; intros next counter total sc a; [done|].
  cbn [step_loop]. unfold bind at 1.
  destruct (Hchain next sc a) as (r & a1 & -> & Hflags).
  unfold tell, save_agent. run. rewrite Hsave. cbn [of_outcome]. run.
  unfold chain_action. cbn [negb].
  destruct (sr_in_context_memory_warning r);
    [|destruct (sr_function_failed r); [|destruct (sr_heartbeat_request r); [|done]]];
    run;
    match goal with
    |- context [bind (py_assert _)
                  (fun _ => bind (dict_to_message None (plain_dict user ?c)) _) ?s] =>
      destruct (chain_run fuel true None (counter + 1)%Z
                  (usage_add total (sr_usage r)) (sc + 1)%Z c s Hid)
        as (msg & a2 & _ & ->) end;
    apply IH.
Qed.

(** X17. With chaining on and no [max_chaining_steps], [step] never ends as
    long as every inner step returns with a memory warning, a failure or a
    heartbeat request, the agent has its [created_by_id] and the agent
    manager stores every state: no number of turns of the loop is enough. *)
Theorem step_without_cap_never_ends (fuel : nat) (messages : list Message) (a : Agent) :
  always_chains inner_step -> created_by_id <> None -> always_saves ->
  eval (step inner_step created_by_id fuel messages true None) a = Ok None.
Proof. intros Hchain Hid Hsave. by apply step_loop_unbounded. Qed.

End StepLoop.

Lemma step_is_capped_witness :
  exists s,
    eval (@step Demo2.services Demo2.eager_step (Some "user-1") 3 [Demo.msg 7 user "go"] true
            (Some 2%Z))
      Demo.short_chat = Ok (Some s) /\
    (1 <= lu_step_count s <= 3)%Z.
Proof.
  pose proof (@step_is_capped Demo2.services Demo2.eager_step (Some "user-1") 3
                [Demo.msg 7 user "go"] true 2%Z
                Demo.short_chat ltac:(vm_compute; lia)) as Hcap.
  destruct (eval (@step Demo2.services Demo2.eager_step (Some "user-1") 3
                    [Demo.msg 7 user "go"] true (Some 2%Z))
              Demo.short_chat) as [[s|]|e] eqn:Hrun.
  - exists s. split; [reflexivity|exact Hcap].
  - destruct Hcap.
  - vm_compute in Hrun. discriminate.
Defined.

Lemma step_without_cap_never_ends_witness :
  eval (@step Demo2.services Demo2.eager_step (Some "user-1") 25 [Demo.msg 7 user "go"] true None)
    Demo.short_chat = Ok None.
Proof.
  apply (@step_without_cap_never_ends Demo2.services Demo2.eager_step (Some "user-1") 25
           [Demo.msg 7 user "go"] Demo.short_chat).
  - intros msgs n a. do 2 eexists. split; reflexivity.
  - discriminate.
  - intros ids. reflexivity.
Defined.

(** Without a [created_by_id] the first chained turn ends [step] with an
    assertion fault. *)
Example step_chain_needs_creator :
  eval (@step Demo2.services Demo2.eager_step None 25 [Demo.msg 7 user "go"] true None)
    Demo.short_chat = Raise AssertionError.
Proof. vm_compute. reflexivity. Qed.

(** ** Looking up and calling the tool *)

Section ToolLookup.

Context `{Collaborators}.

Lemma find_tool_acc_some tls name acc :
  (exists t, acc = Some t /\ tool_name t = name) ->
  exists t,
    fold_left (fun target t => if String.eqb (tool_name t) name then Some t else target) tls acc
      = Some t /\ tool_name t = name.
Proof.
  revert acc. induction tls as [|t' tls IH]; intros acc Hacc; [done|].
  cbn [fold_left]. apply IH.
  destruct (String.eqb_spec (tool_name t') name); [eauto|done].
Qed.

(** X18. The lookup of the tool goes through all the tools without stopping
    at a match: of several tools with the name asked for, the last one in the
    agent's tool list is the one dispatched. *)
Theorem find_tool_takes_last (tls rest : list Tool) (t : Tool) (name : string) :
  tool_name t = name ->
  name ∉ map tool_name rest ->
  find_tool (tls ++ [t] ++ rest) name = Some t.
Proof.
  intros Hname Hrest. unfold find_tool.
  rewrite !fold_left_app. cbn [fold_left].
  destruct (String.eqb_spec (tool_name t) name); [|done].
  by apply find_tool_acc.
Qed.

Lemma find_tool_known tls name :
  name ∈ map tool_name tls -> exists t, find_tool tls name = Some t /\ tool_name t = name.
Proof.
  unfold find_tool. generalize (@None Tool).
  induction tls as [|t tls IH]; intros acc Hin; cbn in Hin; [by apply elem_of_nil in Hin|].
  cbn [fold_left]. apply elem_of_cons in Hin as [->|Hin].
  - apply find_tool_acc_some. rewrite String.eqb_refl. eauto.
  - by apply IH.
Qed.

(** X19. A call to a tool the agent has, with arguments that do not parse as
    JSON, is answered without raising: the assistant message and one
    tool-role message whose content is the packaged parse failure, no
    heartbeat request, the failure flag set. *)
Theorem bad_arguments_reported (a : Agent) (r : ChatCompletionMessage) (ov : bool)
    (rid : option string) (tc0 : ToolCall) (more : list ToolCall) :
  function_call r = None ->
  tool_calls r = Some (tc0 :: more) ->
  fc_name (tc_function tc0) ∈ map tool_name (tools a) ->
  parse_json (fc_arguments (tc_function tc0)) = None ->
  message_id_ok rid = true ->
  ov = true \/ is_Some (tc_id tc0) ->
  exists m_call m_tool a',
    _handle_ai_response r ov rid a = (Ok ([m_call; m_tool], false, true), a') /\
    role m_tool = tool /\
    text m_tool = Some (package_function_response false
                          ("Error parsing JSON for function '" +:+ fc_name (tc_function tc0)
                             +:+ "' arguments: " +:+ fc_arguments (tc_function tc0))).
Proof.
  intros Hfc Htc Hknown Hparse Hrid Hid.
  destruct (handle_tool_call_cases r ov rid a tc0 more Hfc Htc)
    as [[[Hbad|[-> Hnone]] _]|(_ & m & nn & tc & call_id & a2 & -> & Htools & _)].
  - congruence.
  - destruct Hid as [?|[i Hi]]; congruence.
  - unfold dispatch_tool_call. run. rewrite Htools.
    destruct (find_tool_known _ _ Hknown) as (t & -> & _). rewrite Hparse.
    match goal with |- context [tool_error ?ms ?n ?i ?e ?s] =>
      destruct (tool_error_run ms n i e s) as (mt & a3 & -> & Hr & Ht) end.
    eauto 10.
Qed.

End ToolLookup.

Lemma find_tool_takes_last_witness :
  find_tool ([Demo.send_message] ++
             [{| tool_name := "send_message"; return_char_limit := 50 |}] ++ [])
    "send_message"
  = Some {| tool_name := "send_message"; return_char_limit := 50 |}.
Proof.
  apply find_tool_takes_last; [reflexivity|]. cbn. apply not_elem_of_nil.
Defined.

Lemma bad_arguments_reported_witness :
  exists m_call m_tool a',
    @_handle_ai_response Demo.env
      (with_tool_calls [Demo.call "send_message" "{oops"] Demo.two_calls) false None
      Demo.short_chat
      = (Ok ([m_call; m_tool], false, true), a') /\
    role m_tool = tool /\
    text m_tool
      = Some "Failed: Error parsing JSON for function 'send_message' arguments: {oops".
Proof.
  refine (@bad_arguments_reported Demo.env Demo.short_chat
            (with_tool_calls [Demo.call "send_message" "{oops"] Demo.two_calls) false None
            (Demo.call "send_message" "{oops") [] _ _ _ _ _ _).
  - reflexivity.
  - reflexivity.
  - cbn. apply elem_of_cons. by left.
  - reflexivity.
  - reflexivity.
  - right. cbn. eauto.
Defined.

(** [pop_message] on a buffer of two messages, and a pop of three from seven
    on a store that fails: nothing is popped, nothing is lost. *)
Example pop_message_edges :
  eval (@pop_message Demo.env Demo2.services 1) Demo.remembering
    = Raise (ValueError "Agent only has 0 messages in stack, none left to pop") /\
  @pop_message Demo.env Demo2.read_only 3 Demo.short_chat = (Ok [], Demo.short_chat).
Proof. vm_compute. split; reflexivity. Qed.
